(** * plotlib: property application, colour setting and the style registry

    A shallow embedding of [plotlib/util.py] ([DotDict], [Styles],
    [merge_dicts]) and of the reflective helpers of [plotlib/root/tools.py]
    ([apply_properties], [set_color], [get_pad_coordinates]), followed by
    the properties the specification states about them.

    Python objects are modelled by the inductive type [value]; a dict keeps
    its items in insertion order, as the interpreter does, because
    [apply_properties] invokes setters in the order in which the merged dict
    is iterated.  Code that mutates an object and may raise is a function
    from the state before to the state after together with an [outcome]:
    the mutations made before an exception stay in place. *)

From Stdlib Require Import Floats ZArith String Ascii List Bool Lia.
From stdpp Require Import gmap strings.
Import ListNotations.

Set Warnings "-register-all".

Local Open Scope string_scope.
Local Open Scope list_scope.

(** ** Python values *)

(** The two dict classes of the program: the builtin [dict] and its subclass
    [DotDict] of util.py. *)
Inductive dict_class := PyDict | DotDict.

Inductive value :=
| VNone
| VBool (b : bool)
| VInt (z : Z)
| VFloat (f : float)
| VStr (s : string)
| VTuple (vs : list value)
| VList (vs : list value)
| VDict (cls : dict_class) (items : list (string * value))
| VBoundMethod (name : string) (self : value).

(** Exceptions: the class and the first constructor argument. *)
Inductive exn_class :=
| TypeError | ValueError | KeyError | AttributeError | IndexError
| OverflowError | OtherError (name : string).

Record exn := Exn { exn_cls : exn_class; exn_arg : string }.

Inductive outcome (A : Type) :=
| Return (a : A)
| Raise (e : exn).
Arguments Return {A} a.
Arguments Raise {A} e.

(** ** State and exceptions

    [M S A]: a computation on a mutable object of type [S] that returns an
    [A] or raises; the object as it is afterwards is returned in both
    cases. *)
Module Run.

Definition M (S A : Type) : Type := S -> S * outcome A.

Definition ret {S A} (a : A) : M S A := fun s => (s, Return a).

Definition raise {S A} (e : exn) : M S A := fun s => (s, Raise e).

Definition bind {S A B} (m : M S A) (k : A -> M S B) : M S B :=
  fun s =>
    match m s with
    | (s', Return a) => k a s'
    | (s', Raise e) => (s', Raise e)
    end.

(** [try: m finally: fin]: [fin] runs however [m] ends; an exception of
    [fin] replaces the result of [m]. *)
Definition try_finally {S A} (m : M S A) (fin : M S unit) : M S A :=
  fun s =>
    match m s with
    | (s', r) =>
        match fin s' with
        | (s'', Return _) => (s'', r)
        | (s'', Raise e) => (s'', Raise e)
        end
    end.

Definition lift {S A} (r : outcome A) : M S A := fun s => (s, r).

End Run.

Import Run.

Notation "x <- m ;; k" := (bind m (fun x => k))
  (at level 100, m at next level, right associativity, only parsing).
Notation "m ;;; k" := (bind m (fun _ => k))
  (at level 100, right associativity, only parsing).

(** ** Dicts (insertion ordered) *)

Definition items_t := list (string * value).

(** [d[k]], as an option. *)
Fixpoint dict_getitem (k : string) (d : items_t) : option value :=
  match d with
  | [] => None
  | (k', v) :: d' => if String.eqb k k' then Some v else dict_getitem k d'
  end.

(** [d[k] = v]: an existing key keeps its position, a new key goes last. *)
Fixpoint dict_setitem (k : string) (v : value) (d : items_t) : items_t :=
  match d with
  | [] => [(k, v)]
  | (k', v') :: d' =>
      if String.eqb k k' then (k', v) :: d' else (k', v') :: dict_setitem k v d'
  end.

(** [d.update(src)] *)
Definition dict_update (d src : items_t) : items_t :=
  fold_left (fun acc kv => dict_setitem (fst kv) (snd kv) acc) src d.

Definition keys (d : items_t) : list string := map fst d.

(** A list of items is the content of a dict when no key occurs twice. *)
Fixpoint wf_items (d : items_t) : bool :=
  match d with
  | [] => true
  | (k, _) :: d' =>
      match dict_getitem k d' with
      | None => wf_items d'
      | Some _ => false
      end
  end.

Definition isinstance_dict (v : value) : bool :=
  match v with VDict _ _ => true | _ => false end.

(** ** util.py: merge_dicts *)

(** The [for ... else] loop that infers [cls]. *)
Fixpoint infer_cls (dicts : list value) : outcome dict_class :=
  match dicts with
  | [] => Raise (Exn TypeError
             "cannot infer cls as none of the passed objects is of type dict")
  | VDict c _ :: _ => Return c
  | _ :: rest => infer_cls rest
  end.

(** The merging loop. *)
Fixpoint merge_loop (merged_dict : items_t) (dicts : list value) : items_t :=
  match dicts with
  | [] => merged_dict
  | VDict _ d :: rest => merge_loop (dict_update merged_dict d) rest
  | _ :: rest => merge_loop merged_dict rest
  end.

Definition merge_dicts (dicts : list value) (cls : option dict_class)
  : outcome value :=
  match (match cls with Some c => Return c | None => infer_cls dicts end) with
  | Raise e => Raise e
  | Return c => Return (VDict c (merge_loop [] dicts))
  end.

(** ** Attribute lookup on values *)

(** The names that ordinary attribute lookup finds on the type [dict]
    (Python 3); a key of the same name is shadowed by them. *)
Definition dict_type_attrs : list string :=
  [ "clear"; "copy"; "fromkeys"; "get"; "items"; "keys"; "pop"; "popitem";
    "setdefault"; "update"; "values";
    "__class__"; "__class_getitem__"; "__contains__"; "__delattr__";
    "__delitem__"; "__dir__"; "__doc__"; "__eq__"; "__format__"; "__ge__";
    "__getattribute__"; "__getitem__"; "__getstate__"; "__gt__"; "__hash__";
    "__init__"; "__init_subclass__"; "__ior__"; "__iter__"; "__le__";
    "__len__"; "__lt__"; "__ne__"; "__new__"; "__or__"; "__reduce__";
    "__reduce_ex__"; "__repr__"; "__reversed__"; "__ror__"; "__setattr__";
    "__setitem__"; "__sizeof__"; "__str__"; "__subclasshook__" ].

(** What the class statement of [DotDict] adds to them. *)
Definition dotdict_type_attrs : list string :=
  [ "__getattr__"; "__dict__"; "__module__"; "__weakref__" ].

Definition type_attrs (c : dict_class) : list string :=
  match c with
  | PyDict => dict_type_attrs
  | DotDict => dotdict_type_attrs ++ dict_type_attrs
  end.

Definition mem (x : string) (l : list string) : bool :=
  existsb (String.eqb x) l.

Definition class_name (v : value) : string :=
  match v with
  | VNone => "NoneType"
  | VBool _ => "bool"
  | VInt _ => "int"
  | VFloat _ => "float"
  | VStr _ => "str"
  | VTuple _ => "tuple"
  | VList _ => "list"
  | VDict PyDict _ => "dict"
  | VDict DotDict _ => "DotDict"
  | VBoundMethod _ _ => "builtin_function_or_method"
  end.

(** [DotDict.__getattr__]: [self[attr]], a [KeyError] turned into an
    [AttributeError] with the same arguments. *)
Definition DotDict_getattr (self : items_t) (attr : string) : outcome value :=
  match dict_getitem attr self with
  | Some v => Return v
  | None => Raise (Exn AttributeError attr)
  end.

(** [getattr(v, attr)].  Ordinary lookup on the type comes first, the
    [__getattr__] hook of [DotDict] only when that fails.  The attributes of
    the builtin types other than dict are not modelled: the program asks
    them only for names that none of them defines. *)
Definition py_getattr (v : value) (attr : string) : outcome value :=
  match v with
  | VDict c items =>
      if mem attr (type_attrs c) then Return (VBoundMethod attr v)
      else match c with
           | DotDict => DotDict_getattr items attr
           | PyDict =>
               Raise (Exn AttributeError
                        ("'dict' object has no attribute '" ++ attr ++ "'"))
           end
  | _ =>
      Raise (Exn AttributeError
               ("'" ++ class_name v ++ "' object has no attribute '" ++ attr ++ "'"))
  end.

(** ** util.py: Styles *)

Module Styles.

Record t := mk { _stack : list string; _styles : gmap string value }.

Definition DEFAULT_STYLE_NAME : string := "default".

Definition get (style_name : string) : M t value :=
  fun self =>
    match _styles self !! style_name with
    | Some style => (self, Return style)
    | None => (self, Raise (Exn KeyError style_name))
    end.

Definition set (style_name : string) (style : value) : M t value :=
  fun self =>
    if negb (isinstance_dict style) then
      (self, Raise (Exn TypeError
         ("wrong style type '<class '" ++ class_name style ++ "'>', must be a dict")))
    else
      (mk (_stack self) (<[style_name := style]> (_styles self)), Return style).

(** [__init__]: empty stack, empty mapping, then the default style. *)
Definition init : t * outcome value :=
  set DEFAULT_STYLE_NAME (VDict DotDict []) (mk [] ∅).

Definition new : t := fst init.

(** [self._stack.append(style_name)] *)
Definition stack_append (style_name : string) (self : t) : t :=
  mk (_stack self ++ [style_name]) (_styles self).

(** [self._stack.pop()] *)
Definition stack_pop : M t unit :=
  fun self =>
    match _stack self with
    | [] => (self, Raise (Exn IndexError "pop from empty list"))
    | _ :: _ => (mk (removelast (_stack self)) (_styles self), Return tt)
    end.

(** The context manager [use], applied to the body of its [with] block; the
    body receives the yielded style. *)
Definition use {A} (style_name : string) (body : value -> M t A) : M t A :=
  fun self =>
    match _styles self !! style_name with
    | None =>
        (self, Raise (Exn ValueError
           ("cannot use unknown style '" ++ style_name ++ "'")))
    | Some _ =>
        try_finally (style <- get style_name ;; body style) stack_pop
          (stack_append style_name self)
    end.

Definition current_style_name (self : t) : string :=
  match _stack self with
  | [] => DEFAULT_STYLE_NAME
  | _ :: _ => List.last (_stack self) DEFAULT_STYLE_NAME
  end.

Definition current_style : M t value :=
  fun self => get (current_style_name self) self.

(** [__getattr__], the hook for names that ordinary lookup does not find on
    the registry. *)
Definition getattr (attr : string) : M t value :=
  style <- current_style ;; lift (py_getattr style attr).

(** A scope body leaves the activation stack as it found it. *)
Definition stack_neutral {A} (body : M t A) : Prop :=
  forall self, _stack (fst (body self)) = _stack self.

End Styles.

(** ** Arithmetic on values *)

Inductive num := NInt (z : Z) | NFloat (f : float).

(** The numeric view of a value; [bool] is a subclass of [int]. *)
Definition as_num (v : value) : option num :=
  match v with
  | VBool b => Some (NInt (if b then 1 else 0)%Z)
  | VInt z => Some (NInt z)
  | VFloat f => Some (NFloat f)
  | _ => None
  end.

(** [float(z)]: correctly rounded, [OverflowError] beyond the range. *)
Definition float_of_Z (z : Z) : outcome float :=
  let f := SF2Prim (binary_normalize prec emax z 0 false) in
  if PrimFloat.is_infinity f
  then Raise (Exn OverflowError "int too large to convert to float")
  else Return f.

Definition to_float (n : num) : outcome float :=
  match n with
  | NInt z => float_of_Z z
  | NFloat f => Return f
  end.

Definition unsupported (op : string) (a b : value) : exn :=
  Exn TypeError ("unsupported operand type(s) for " ++ op ++ ": '" ++
                 class_name a ++ "' and '" ++ class_name b ++ "'").

(** A binary operator on numbers: integers stay integers, a float operand
    turns the other one into a float. *)
Definition num_binop (op : string) (zop : Z -> Z -> Z)
    (fop : float -> float -> float) (a b : value) : outcome value :=
  match as_num a, as_num b with
  | Some (NInt x), Some (NInt y) => Return (VInt (zop x y))
  | Some x, Some y =>
      match to_float x with
      | Raise e => Raise e
      | Return fx =>
          match to_float y with
          | Raise e => Raise e
          | Return fy => Return (VFloat (fop fx fy))
          end
      end
  | _, _ => Raise (unsupported op a b)
  end.

(** [a + b]; sequences of the same kind are concatenated. *)
Definition py_add (a b : value) : outcome value :=
  match a, b with
  | VStr x, VStr y => Return (VStr (x ++ y))
  | VTuple x, VTuple y => Return (VTuple (x ++ y))
  | VList x, VList y => Return (VList (x ++ y))
  | _, _ => num_binop "+" Z.add PrimFloat.add a b
  end.

Definition py_sub (a b : value) : outcome value :=
  num_binop "-" Z.sub PrimFloat.sub a b.

(** [a / 2.]: the divisor is the float literal, so the quotient is a
    float and no division by zero arises. *)
Definition py_halve (a : value) : outcome value :=
  match as_num a with
  | Some x =>
      match to_float x with
      | Raise e => Raise e
      | Return fx => Return (VFloat (fx / 2)%float)
      end
  | None => Raise (unsupported "/" a (VFloat 2%float))
  end.

(** ** root/tools.py *)

Module Tools.

(** An attribute of a target object: plain data, or something callable
    with positional arguments that acts on the target. *)
Inductive attribute (obj_t : Type) :=
| Data (v : value)
| Callable (call : list value -> M obj_t unit).
Arguments Data {obj_t} v.
Arguments Callable {obj_t} call.

Section Target.

(** The target: its state, and what [getattr(obj, name, None)] finds on it
    ([None] when the attribute is absent). *)
Context {obj_t : Type}.
Variable obj_getattr : obj_t -> string -> option (attribute obj_t).

(** [getattr(obj, "Set{}".format(name), getattr(obj, name, None))] *)
Definition resolve_setter (obj : obj_t) (name : string)
  : option (attribute obj_t) :=
  match obj_getattr obj ("Set" ++ name) with
  | Some a => Some a
  | None => obj_getattr obj name
  end.

(** The body of the loop of [apply_properties]. *)
Definition apply_property (name : string) (value : value) : M obj_t unit :=
  fun obj =>
    match resolve_setter obj name with
    | Some (Callable setter) =>
        match value with
        | VTuple args => setter args obj
        | _ => setter [value] obj
        end
    | _ => (obj, Return tt)
    end.

Fixpoint apply_loop (items : items_t) : M obj_t unit :=
  match items with
  | [] => ret tt
  | (name, value) :: rest => apply_property name value ;;; apply_loop rest
  end.

(** [six.iteritems(d)] *)
Definition iteritems (d : value) : outcome items_t :=
  match d with
  | VDict _ items => Return items
  | _ => Raise (Exn AttributeError
                  ("'" ++ class_name d ++ "' object has no attribute 'items'"))
  end.

Definition apply_properties (props : value) (_props : list value)
  : M obj_t unit :=
  d <- lift (merge_dicts (props :: _props) None) ;;
  items <- lift (iteritems d) ;;
  apply_loop items.

(** The table [funcs] of [set_color]. *)
Definition funcs (flag : ascii) : option (list string) :=
  if Ascii.eqb flag "l" then Some ["SetLineColor"]
  else if Ascii.eqb flag "m" then Some ["SetMarkerColor"]
  else if Ascii.eqb flag "f" then Some ["SetFillColor"]
  else if Ascii.eqb flag "t" then Some ["SetTextColor"; "SetLabelColor"]
  else None.

(** The inner loop of [set_color], over the setter names of one flag. *)
Fixpoint set_color_attrs (color : value) (attrs : list string) : M obj_t unit :=
  match attrs with
  | [] => ret tt
  | attr :: rest =>
      (fun obj =>
         match obj_getattr obj attr with
         | Some (Callable func) =>
             match color with
             | VTuple args => func args obj
             | VList args => func args obj
             | _ => func [color] obj
             end
         | _ => (obj, Return tt)
         end) ;;;
      set_color_attrs color rest
  end.

(** The outer loop, over the characters of [flags]. *)
Fixpoint set_color_flags (color : value) (flags : list ascii) : M obj_t unit :=
  match flags with
  | [] => ret tt
  | flag :: rest =>
      match funcs flag with
      | None =>
          raise (Exn ValueError
                   ("flag '" ++ String flag EmptyString ++ "' is unknown"))
      | Some attrs =>
          set_color_attrs color attrs ;;; set_color_flags color rest
      end
  end.

Definition default_flags : string := "lmft".

Definition set_color (color : value) (flags : string) : M obj_t unit :=
  set_color_flags color (list_ascii_of_string flags).

End Target.

(** [styles.pad.<name>], on the module-level registry [styles]. *)
Definition pad_attr (name : string) : M Styles.t value :=
  pad <- Styles.getattr "pad" ;; lift (py_getattr pad name).

Definition h_values : list string := ["l"; "c"; "r"].
Definition v_values : list string := ["t"; "c"; "b"].

(** [offset=0.005], as the nearest binary64 value. *)
Definition default_offset : value := VFloat 0x1.47ae147ae147bp-8%float.

Definition is_None (v : value) : bool :=
  match v with VNone => true | _ => false end.

(** [# determine x and y position]: the two [if ... elif ... else]
    statements of [get_pad_coordinates]. *)
Definition x_position (h : string) (h_offset : value) : M Styles.t value :=
  if String.eqb h "l" then
    lm <- pad_attr "LeftMargin" ;; lift (py_add lm h_offset)
  else if String.eqb h "c" then
    rm <- pad_attr "RightMargin" ;;
    a <- lift (py_sub (VFloat 1%float) rm) ;;
    lm <- pad_attr "LeftMargin" ;;
    b <- lift (py_add a lm) ;;
    lift (py_halve b)
  else
    rm <- pad_attr "RightMargin" ;;
    a <- lift (py_sub (VFloat 1%float) rm) ;;
    lift (py_sub a h_offset).

Definition y_position (v : string) (v_offset : value) : M Styles.t value :=
  if String.eqb v "t" then
    tm <- pad_attr "TopMargin" ;;
    a <- lift (py_sub (VFloat 1%float) tm) ;;
    lift (py_sub a v_offset)
  else if String.eqb v "c" then
    tm <- pad_attr "TopMargin" ;;
    a <- lift (py_sub (VFloat 1%float) tm) ;;
    bm <- pad_attr "BottomMargin" ;;
    b <- lift (py_add a bm) ;;
    lift (py_halve b)
  else
    bm <- pad_attr "BottomMargin" ;; lift (py_add bm v_offset).

Definition unknown_position (axis h allowed : string) : exn :=
  Exn ValueError ("unknown " ++ axis ++ " position '" ++ h ++
                  "', allowed values are " ++ allowed).

Definition get_pad_coordinates (h v : string) (offset h_offset v_offset : value)
  : M Styles.t value :=
  if negb (mem h h_values) then
    raise (unknown_position "horizontal" h "('l', 'c', 'r')")
  else if negb (mem v v_values) then
    raise (unknown_position "vertical" v "('t', 'c', 'b')")
  else
    let h_offset := if is_None h_offset then offset else h_offset in
    let v_offset := if is_None v_offset then offset else v_offset in
    x <- x_position h h_offset ;;
    y <- y_position v v_offset ;;
    ret (VTuple [x; y]).

End Tools.

(** ** A recording target

    Its state is the log of the calls made on it.  It exposes the setters
    [SetFoo], [SetLineColor], [SetTextColor], the callable [Bar], the plain
    attribute [SetData], and [SetBad], which always raises. *)
Module Recorder.

Definition t := list (string * list value).

Definition record (name : string) : Tools.attribute t :=
  Tools.Callable (fun args log => (log ++ [(name, args)], Return tt)).

Definition getattr (obj : t) (name : string) : option (Tools.attribute t) :=
  if mem name ["SetFoo"; "SetLineColor"; "SetTextColor"; "Bar"]
  then Some (record name)
  else if String.eqb name "SetData" then Some (Tools.Data (VInt 7))
  else if String.eqb name "SetBad"
  then Some (Tools.Callable (fun _ log =>
               (log, Raise (Exn (OtherError "RuntimeError") "out of range"))))
  else None.

End Recorder.

(** ** Vocabulary of the statements, example registries *)

(** [callable(a)], for the result of a [getattr] with default [None]. *)
Definition callable {obj_t} (a : option (Tools.attribute obj_t)) : bool :=
  match a with
  | Some (Tools.Callable _) => true
  | _ => false
  end.

Definition is_tuple (v : value) : bool :=
  match v with VTuple _ => true | _ => false end.

(** The positional arguments a setter receives for a property value. *)
Definition positional_args (v : value) : list value :=
  match v with
  | VTuple vs => vs
  | _ => [v]
  end.

(** The number of constructors of a value. *)
Fixpoint vsize (v : value) : nat :=
  match v with
  | VTuple vs => S (list_sum (map vsize vs))
  | VList vs => S (list_sum (map vsize vs))
  | VDict _ items => S (list_sum (map (fun kv => vsize (snd kv)) items))
  | VBoundMethod _ self => S (vsize self)
  | _ => 1
  end.

Definition valid_flag (c : ascii) : bool :=
  existsb (Ascii.eqb c) (list_ascii_of_string "lmft").

Definition unknown_flag (flag : ascii) : exn :=
  Exn ValueError ("flag '" ++ String flag EmptyString ++ "' is unknown").

Definition no_dict_error : exn :=
  Exn TypeError "cannot infer cls as none of the passed objects is of type dict".

(** A number that converts to a float. *)
Definition float_ok (v : value) : bool :=
  match as_num v with
  | Some n => match to_float n with Return _ => true | Raise _ => false end
  | None => false
  end.

Definition margins : list string :=
  ["LeftMargin"; "RightMargin"; "TopMargin"; "BottomMargin"].

(** A registry with the styles ["default"], ["a"] and ["b"], and a scope
    body that registers a style and then fails. *)
Definition registry_ab : Styles.t :=
  fst (Styles.set "b" (VDict DotDict [("canvas", VInt 2)])
         (fst (Styles.set "a" (VDict DotDict [("canvas", VInt 1)]) Styles.new))).

Definition failing_body : value -> M Styles.t unit :=
  fun style =>
    Styles.set "c" style ;;;
    raise (Exn (OtherError "RuntimeError") "boom").

(** The registry after [set("default", {"canvas": 1})], a plain dict, and
    after [set("default", DotDict(copy=1))]. *)
Definition registry_plain : Styles.t :=
  fst (Styles.set "default" (VDict PyDict [("canvas", VInt 1)]) Styles.new).

Definition registry_copy : Styles.t :=
  fst (Styles.set "default" (VDict DotDict [("copy", VInt 1)]) Styles.new).

(** A registry whose default style has a pad group with the four margins. *)
Definition registry_pad : Styles.t :=
  fst (Styles.set "default"
         (VDict DotDict
            [("pad", VDict DotDict
                       [("TopMargin", VFloat 0.0625%float);
                        ("RightMargin", VFloat 0.125%float);
                        ("BottomMargin", VInt 0);
                        ("LeftMargin", VFloat 0.25%float)])])
         Styles.new).

(** ** util.py: the rest of DotDict, wellformed registries *)


(** The invariant of a registry: the default style is registered, the
    stack holds registered names, and every registered style is a dict. *)
Definition wf_registry (s : Styles.t) : Prop :=
  is_Some (Styles._styles s !! Styles.DEFAULT_STYLE_NAME) /\
  (forall name, In name (Styles._stack s) ->
                is_Some (Styles._styles s !! name)) /\
  (forall name style, Styles._styles s !! name = Some style ->
                      isinstance_dict style = true).

(** ** More arithmetic: products and truth values *)

Definition as_index (v : value) : option Z :=
  match v with
  | VInt z => Some z
  | VBool b => Some (if b then 1 else 0)%Z
  | _ => None
  end.

Fixpoint repeat_items {A} (l : list A) (n : nat) : list A :=
  match n with
  | O => []
  | S n' => l ++ repeat_items l n'
  end.

Fixpoint repeat_string (s : string) (n : nat) : string :=
  match n with
  | O => ""
  | S n' => s ++ repeat_string s n'
  end.

Definition not_int_error (count : value) : exn :=
  Exn TypeError ("can't multiply sequence by non-int of type '" ++
                 class_name count ++ "'").

(** The count of a repetition, an index that fits the platform's signed
    size (64 bits); negative counts give the empty sequence. *)
Definition as_count (count : value) : outcome nat :=
  match as_index count with
  | Some n =>
      if ((- 2 ^ 63 <=? n) && (n <? 2 ^ 63))%Z then Return (Z.to_nat n)
      else Raise (Exn OverflowError
                    "cannot fit 'int' into an index-sized integer")
  | None => Raise (not_int_error count)
  end.

(** [a * count] for a str, tuple or list [a] (the limits of memory
    aside); [None] when [a] is no sequence. *)
Definition seq_repeat (a count : value) : option (outcome value) :=
  match a with
  | VStr s =>
      Some (match as_count count with
            | Return n => Return (VStr (repeat_string s n))
            | Raise e => Raise e
            end)
  | VTuple vs =>
      Some (match as_count count with
            | Return n => Return (VTuple (repeat_items vs n))
            | Raise e => Raise e
            end)
  | VList vs =>
      Some (match as_count count with
            | Return n => Return (VList (repeat_items vs n))
            | Raise e => Raise e
            end)
  | _ => None
  end.

(** [a * b] *)
Definition py_mul (a b : value) : outcome value :=
  match seq_repeat a b with
  | Some r => r
  | None =>
      match seq_repeat b a with
      | Some r => r
      | None => num_binop "*" Z.mul PrimFloat.mul a b
      end
  end.


(** ** root/tools.py: legend coordinates and the setup functions *)

Module Setup.

(** [arg if arg is not None else styles.<attr>] *)
Definition arg_or_style (arg : value) (attr : string) : M Styles.t value :=
  if Tools.is_None arg then Styles.getattr attr else ret arg.

Definition calculate_legend_coords (n_entries x1 x2 y2 dy : value)
  : M Styles.t value :=
  x1 <- arg_or_style x1 "legend_x1" ;;
  x2 <- arg_or_style x2 "legend_x2" ;;
  y2 <- arg_or_style y2 "legend_y2" ;;
  dy <- arg_or_style dy "legend_dy" ;;
  p <- lift (py_mul dy n_entries) ;;
  y1 <- lift (py_sub y2 p) ;;
  ret (VTuple [x1; y1; x2; y2]).


Section Target.

(** The target as in [Tools], and the name of its class for the message
    of an [AttributeError].  The setup functions act on the module-level
    registry [styles] and on the target: the state is the pair. *)
Context {obj_t : Type}.
Variable obj_getattr : obj_t -> string -> option (Tools.attribute obj_t).
Variable obj_class : string.

Definition on_styles {A} (m : M Styles.t A) : M (Styles.t * obj_t) A :=
  fun st =>
    match m (fst st) with
    | (styles', r) => ((styles', snd st), r)
    end.

Definition on_target {A} (m : M obj_t A) : M (Styles.t * obj_t) A :=
  fun st =>
    match m (snd st) with
    | (obj', r) => ((fst st, obj'), r)
    end.

(** [apply_properties(obj, styles.<group>, props)]: the body of
    [setup_style], [setup_pad] and [setup_box]. *)
Definition setup_plain (group : string) (props : value)
  : M (Styles.t * obj_t) unit :=
  style <- on_styles (Styles.getattr group) ;;
  on_target (Tools.apply_properties obj_getattr style [props]).

Definition setup_style := setup_plain "style".
Definition setup_pad := setup_plain "pad".
Definition setup_box := setup_plain "box".

(** The same followed by [if color is not None: set_color(obj, color)]:
    the body of [setup_latex], [setup_legend], [setup_graph], [setup_line]
    and [setup_func]. *)
Definition setup_colored (group : string) (props color : value)
  : M (Styles.t * obj_t) unit :=
  setup_plain group props ;;;
  if Tools.is_None color then ret tt
  else on_target (Tools.set_color obj_getattr color Tools.default_flags).

Definition setup_legend := setup_colored "legend".
Definition setup_graph := setup_colored "graph".
Definition setup_line := setup_colored "line".
Definition setup_func := setup_colored "func".




End Target.

End Setup.

(** A canvas that records its calls. *)
Definition canvas_getattr (obj : Recorder.t) (name : string)
  : option (Tools.attribute Recorder.t) :=
  if mem name ["SetWindowSize"; "SetCanvasSize"; "SetFillStyle"]
  then Some (Recorder.record name)
  else None.

(** A registry whose default style has canvas sizes, a canvas group, a
    latex group and the legend coordinates. *)
Definition registry_full : Styles.t :=
  fst (Styles.set "default"
         (VDict DotDict
            [("canvas_width", VInt 800);
             ("canvas_height", VInt 600);
             ("canvas", VDict DotDict [("FillStyle", VInt 1001)]);
             ("latex", VDict DotDict [("Foo", VInt 1)]);
             ("legend_x1", VInt 10);
             ("legend_x2", VInt 90);
             ("legend_y2", VInt 80);
             ("legend_dy", VInt 5)])
         Styles.new).

(** ** Vocabulary of the further statements *)

(** The value of [k] in the last dict of [dicts] that has the key. *)
Fixpoint last_value (k : string) (dicts : list value) : option value :=
  match dicts with
  | [] => None
  | d :: rest =>
      match last_value k rest with
      | Some v => Some v
      | None =>
          match d with
          | VDict _ items => dict_getitem k items
          | _ => None
          end
      end
  end.

(** A dict among the arguments has each key once. *)
Definition wf_value (v : value) : bool :=
  match v with
  | VDict _ items => wf_items items
  | _ => true
  end.





(** A target on which the plain attribute [SetBar] stands beside the
    callable [Bar]. *)
Definition shadow_getattr (obj : Recorder.t) (name : string)
  : option (Tools.attribute Recorder.t) :=
  if String.eqb name "SetBar" then Some (Tools.Data (VInt 0))
  else Recorder.getattr obj name.

(** ** The state and exception monad *)

Section RunFacts.

Context {S A B C : Type}.

Lemma bind_assoc (m : M S A) (k : A -> M S B) (h : B -> M S C) s :
  bind (bind m k) h s = bind m (fun a => bind (k a) h) s.
Proof. unfold bind. destruct (m s) as [s' [a|e]]; reflexivity. Qed.

Lemma bind_ext (m : M S A) (k k' : A -> M S B) s :
  (forall a s', k a s' = k' a s') -> bind m k s = bind m k' s.
Proof. intros H. unfold bind. destruct (m s) as [s' [a|e]]; auto. Qed.

End RunFacts.

(** ** Lemmas on dicts *)

Section DictFacts.

Implicit Types (d src : items_t) (k : string) (v : value).

Lemma getitem_None_notin k d : dict_getitem k d = None <-> ~ In k (keys d).
Proof.
  induction d as [|[k' v'] d IH]; simpl.
  - tauto.
  - destruct (String.eqb_spec k k') as [->|Hne].
    + split; [discriminate | intros H; exfalso; apply H; now left].
    + rewrite IH. split.
      * intros H [Heq|Hin]; [congruence | tauto].
      * intros H Hin. apply H. now right.
Qed.

Lemma wf_items_NoDup d : wf_items d = true <-> List.NoDup (keys d).
Proof.
  induction d as [|[k v] d IH]; simpl.
  - split; [constructor | reflexivity].
  - destruct (dict_getitem k d) eqn:E.
    + split; [discriminate |].
      intros H. inversion H as [|? ? Hnin _]; subst.
      apply getitem_None_notin in Hnin. congruence.
    + rewrite IH. apply getitem_None_notin in E. split.
      * intros H. now constructor.
      * intros H. now inversion H.
Qed.

Lemma getitem_setitem k k' v d :
  dict_getitem k' (dict_setitem k v d) =
  if String.eqb k' k then Some v else dict_getitem k' d.
Proof.
  induction d as [|[k0 v0] d IH]; simpl.
  - reflexivity.
  - destruct (String.eqb_spec k k0) as [->|Hne]; simpl.
    + destruct (String.eqb k' k0); reflexivity.
    + rewrite IH. destruct (String.eqb_spec k' k0) as [->|Hne'].
      * destruct (String.eqb_spec k0 k); [congruence | reflexivity].
      * reflexivity.
Qed.

Lemma keys_setitem_in k v d :
  In k (keys d) -> keys (dict_setitem k v d) = keys d.
Proof.
  induction d as [|[k0 v0] d IH]; simpl; [tauto|].
  intros Hin. destruct (String.eqb_spec k k0) as [->|Hne]; simpl.
  - reflexivity.
  - f_equal. apply IH. destruct Hin; [congruence | assumption].
Qed.

Lemma setitem_notin k v d :
  ~ In k (keys d) -> dict_setitem k v d = d ++ [(k, v)].
Proof.
  induction d as [|[k0 v0] d IH]; simpl; [reflexivity|].
  intros Hnin. destruct (String.eqb_spec k k0) as [->|Hne].
  - exfalso. apply Hnin. now left.
  - f_equal. apply IH. intros H. apply Hnin. now right.
Qed.

Lemma keys_setitem_NoDup k v d :
  List.NoDup (keys d) -> List.NoDup (keys (dict_setitem k v d)).
Proof.
  intros Hd. destruct (in_dec string_dec k (keys d)) as [Hin|Hnin].
  - now rewrite keys_setitem_in.
  - rewrite setitem_notin by assumption. unfold keys. rewrite map_app. simpl.
    apply NoDup_app_remove_l with (l := []). simpl.
    apply NoDup_Add with (a := k) (l := map fst d).
    + clear. induction (map fst d); simpl; constructor; assumption.
    + split; assumption.
Qed.

Lemma keys_update_NoDup src d :
  List.NoDup (keys d) -> List.NoDup (keys (dict_update d src)).
Proof.
  unfold dict_update. revert d.
  induction src as [|[k v] src IH]; simpl; intros d Hd; [assumption|].
  apply IH. now apply keys_setitem_NoDup.
Qed.

(** Updating with a well-formed dict whose keys are all new appends it. *)
Lemma update_fresh src d :
  List.NoDup (keys src) -> (forall k, In k (keys src) -> ~ In k (keys d)) ->
  dict_update d src = d ++ src.
Proof.
  unfold dict_update. revert d.
  induction src as [|[k v] src IH]; simpl; intros d Hnd Hfresh.
  - now rewrite app_nil_r.
  - inversion Hnd as [|? ? Hk Hnd']; subst.
    rewrite setitem_notin by (apply Hfresh; now left).
    rewrite IH; [now rewrite <- app_assoc | assumption |].
    intros k0 Hin. unfold keys. rewrite map_app, in_app_iff. simpl.
    intros [H|[H|[]]].
    + apply (Hfresh k0); [now right | exact H].
    + subst k0. contradiction.
Qed.

Lemma update_empty src : List.NoDup (keys src) -> dict_update [] src = src.
Proof. intros H. rewrite update_fresh; [reflexivity | assumption | intros ? _ []]. Qed.

(** Last wins: a key of a well-formed [src] takes the value of [src]. *)
Lemma getitem_update k d src :
  wf_items src = true ->
  dict_getitem k (dict_update d src) =
  match dict_getitem k src with
  | Some v => Some v
  | None => dict_getitem k d
  end.
Proof.
  unfold dict_update. revert d.
  induction src as [|[k0 v0] src IH]; simpl; intros d Hwf; [reflexivity|].
  destruct (dict_getitem k0 src) eqn:E0; [discriminate|].
  rewrite IH by assumption. rewrite getitem_setitem.
  destruct (String.eqb_spec k k0) as [->|Hne].
  - now rewrite E0.
  - reflexivity.
Qed.

Lemma merge_loop_NoDup dicts d :
  List.NoDup (keys d) -> List.NoDup (keys (merge_loop d dicts)).
Proof.
  revert d. induction dicts as [|x dicts IH]; simpl; intros d Hd; [assumption|].
  destruct x; auto. apply IH. now apply keys_update_NoDup.
Qed.

Lemma merge_loop_app ds1 ds2 d :
  merge_loop d (ds1 ++ ds2) = merge_loop (merge_loop d ds1) ds2.
Proof.
  revert d. induction ds1 as [|x ds1 IH]; simpl; intros d; [reflexivity|].
  destruct x; auto.
Qed.

End DictFacts.

(** ** merge_dicts *)

Section MergeFacts.

Lemma merge_dicts_dict c d rest cls :
  merge_dicts (VDict c d :: rest) cls =
  Return (VDict (match cls with Some c' => c' | None => c end)
                (merge_loop [] (VDict c d :: rest))).
Proof. unfold merge_dicts. destruct cls; reflexivity. Qed.

End MergeFacts.

(** C3. [merge_dicts] merges in order and the last mapping wins: a key of
    [B] has the value of [B] in [merge(A, B)], every other key the value it
    has in [A].  It is associative in effect: merging [A, B, C] gives the
    same dict (same class, same items in the same order) as merging
    [merge(A, B), C].  And [merge({"a":1,"b":2}, {"b":3})] is
    [{"a":1,"b":3}]. *)
Theorem merge_dicts_last_wins_assoc :
  (forall cls ca cb cc (A B C : items_t),
      wf_items A = true -> wf_items B = true -> wf_items C = true ->
      exists c AB,
        merge_dicts [VDict ca A; VDict cb B] cls = Return (VDict c AB) /\
        (forall k, dict_getitem k AB =
                   match dict_getitem k B with
                   | Some v => Some v
                   | None => dict_getitem k A
                   end) /\
        merge_dicts [VDict ca A; VDict cb B; VDict cc C] cls =
        merge_dicts [VDict c AB; VDict cc C] cls) /\
  merge_dicts [VDict PyDict [("a", VInt 1); ("b", VInt 2)];
               VDict PyDict [("b", VInt 3)]] None =
  Return (VDict PyDict [("a", VInt 1); ("b", VInt 3)]).
Proof.
  split; [|reflexivity].
  intros cls ca cb cc A B C HA HB HC.
  exists (match cls with Some c' => c' | None => ca end),
         (merge_loop [] [VDict ca A; VDict cb B]).
  split; [apply merge_dicts_dict|]. split.
  - intros k. simpl. rewrite getitem_update by assumption.
    rewrite getitem_update by assumption. simpl.
    destruct (dict_getitem k B); [reflexivity|].
    destruct (dict_getitem k A); reflexivity.
  - rewrite !merge_dicts_dict. simpl.
    rewrite (update_empty (dict_update (dict_update [] A) B)).
    + destruct cls; reflexivity.
    + apply keys_update_NoDup, keys_update_NoDup. constructor.
Qed.

Lemma merge_dicts_last_wins_assoc_witness :
  exists c AB,
    merge_dicts [VDict DotDict [("x", VInt 1); ("y", VInt 2)];
                 VDict PyDict [("y", VInt 3); ("z", VInt 4)]] None
    = Return (VDict c AB) /\
    (forall k, dict_getitem k AB =
               match dict_getitem k [("y", VInt 3); ("z", VInt 4)] with
               | Some v => Some v
               | None => dict_getitem k [("x", VInt 1); ("y", VInt 2)]
               end) /\
    merge_dicts [VDict DotDict [("x", VInt 1); ("y", VInt 2)];
                 VDict PyDict [("y", VInt 3); ("z", VInt 4)];
                 VDict PyDict [("x", VInt 5)]] None =
    merge_dicts [VDict c AB; VDict PyDict [("x", VInt 5)]] None.
Proof.
  apply (proj1 merge_dicts_last_wins_assoc None DotDict PyDict PyDict
           [("x", VInt 1); ("y", VInt 2)] [("y", VInt 3); ("z", VInt 4)]
           [("x", VInt 5)]); reflexivity.
Defined.

(** ** The style registry *)

Section StylesFacts.

Import Styles.

Context {A : Type}.
Implicit Types (s self : Styles.t) (body : value -> M Styles.t A).

Lemma current_style_name_append name s :
  current_style_name (stack_append name s) = name.
Proof.
  unfold current_style_name, stack_append. simpl.
  destruct (_stack s ++ [name]) eqn:E.
  - destruct (_stack s); discriminate.
  - rewrite <- E. apply last_last.
Qed.

Lemma current_style_name_stack s s' :
  _stack s' = _stack s -> current_style_name s' = current_style_name s.
Proof. unfold current_style_name. now intros ->. Qed.

(** What a scope does once the name is known: push, run the body on the
    yielded style, pop. *)
Lemma use_registered name body s style :
  _styles s !! name = Some style ->
  use name body s =
  match body style (stack_append name s) with
  | (s', r) =>
      match _stack s' with
      | [] => (s', Raise (Exn IndexError "pop from empty list"))
      | _ :: _ => (mk (removelast (_stack s')) (_styles s'), r)
      end
  end.
Proof.
  intros H. unfold use, try_finally, bind, get, stack_pop. rewrite H. simpl.
  rewrite H. destruct (body style (stack_append name s)) as [s' r].
  destruct (_stack s'); reflexivity.
Qed.

(** A scope around a body that leaves the stack alone leaves it alone, and
    passes on what the body returned or raised. *)
Lemma use_balanced name body s style :
  _styles s !! name = Some style ->
  stack_neutral (body style) ->
  _stack (fst (use name body s)) = _stack s /\
  _styles (fst (use name body s)) =
    _styles (fst (body style (stack_append name s))) /\
  snd (use name body s) = snd (body style (stack_append name s)).
Proof.
  intros H Hn. rewrite (use_registered _ _ _ _ H).
  specialize (Hn (stack_append name s)).
  destruct (body style (stack_append name s)) as [s' r]. simpl in *.
  rewrite Hn. destruct (_stack s ++ [name]) eqn:E.
  - destruct (_stack s); discriminate.
  - rewrite <- E. simpl. now rewrite removelast_last.
Qed.

End StylesFacts.

(** The operations of the registry leave the stack alone, so every scope
    body written with them does. *)
Section StackNeutral.

Import Styles.

Lemma neutral_ret {A} (a : A) : stack_neutral (ret a).
Proof. intros s. reflexivity. Qed.

Lemma neutral_raise {A} e : stack_neutral (@raise Styles.t A e).
Proof. intros s. reflexivity. Qed.

Lemma neutral_lift {A} (r : outcome A) : stack_neutral (lift r).
Proof. intros s. reflexivity. Qed.

Lemma neutral_bind {A B} (m : M Styles.t A) (k : A -> M Styles.t B) :
  stack_neutral m -> (forall a, stack_neutral (k a)) -> stack_neutral (bind m k).
Proof.
  intros Hm Hk s. unfold bind. specialize (Hm s).
  destruct (m s) as [s' [a|e]]; simpl in *.
  - now rewrite Hk.
  - assumption.
Qed.

Lemma neutral_get name : stack_neutral (get name).
Proof. intros s. unfold get. destruct (_styles s !! name); reflexivity. Qed.

Lemma neutral_set name style : stack_neutral (set name style).
Proof. intros s. unfold set. destruct (negb (isinstance_dict style)); reflexivity. Qed.

Lemma neutral_current_style : stack_neutral current_style.
Proof. intros s. apply neutral_get. Qed.

Lemma neutral_getattr attr : stack_neutral (getattr attr).
Proof.
  apply neutral_bind; [apply neutral_current_style | intros; apply neutral_lift].
Qed.

Lemma neutral_use {A} name (body : value -> M Styles.t A) :
  (forall style, stack_neutral (body style)) -> stack_neutral (use name body).
Proof.
  intros Hb s. destruct (_styles s !! name) as [style|] eqn:E.
  - now apply (use_balanced name body s style).
  - unfold use. now rewrite E.
Qed.

End StackNeutral.

(** C2. With ["a"] and ["b"] registered, a scope [use("b")] nested in a
    scope [use("a")] restores the active style on each exit: the current
    style name is ["a"] once the inner scope has exited, and after both it is
    what it was before, ["default"] on an empty stack.  The pushed name is
    popped however the body ends: after a body that raises, the stack is as
    deep as before the scope was entered and the error is passed on.  Scope
    bodies are those that leave the stack as they find it, as all code
    written with the operations of the registry does; after any body at all
    the scope removes exactly the last entry of the stack the body left. *)
Theorem use_nested_restores {A : Type} :
  forall (s : Styles.t) (a b : string) (inner : value -> M Styles.t A),
    is_Some (Styles._styles s !! a) ->
    is_Some (Styles._styles s !! b) ->
    (forall style, Styles.stack_neutral (inner style)) ->
    Styles.current_style_name
      (fst (Styles.use b inner (Styles.stack_append a s))) = a /\
    Styles._stack (fst (Styles.use a (fun _ => Styles.use b inner) s))
      = Styles._stack s /\
    (Styles._stack s = [] ->
     Styles.current_style_name
       (fst (Styles.use a (fun _ => Styles.use b inner) s))
       = Styles.DEFAULT_STYLE_NAME) /\
    (forall e : exn,
        length (Styles._stack
                  (fst (Styles.use a (fun _ => @raise Styles.t A e) s)))
          = length (Styles._stack s) /\
        snd (Styles.use a (fun _ => @raise Styles.t A e) s) = Raise e) /\
    length (Styles._stack (fst (Styles.use a inner s)))
      = length (Styles._stack s) /\
    (forall (body : value -> M Styles.t A) style,
        Styles._styles s !! a = Some style ->
        Styles._stack (fst (body style (Styles.stack_append a s))) <> [] ->
        Styles._stack (fst (Styles.use a body s)) =
        removelast (Styles._stack (fst (body style (Styles.stack_append a s))))).
Proof.
  intros s a b inner [sa Ha] [sb Hb] Hn.
  assert (Hout : Styles._stack (fst (Styles.use a (fun _ => Styles.use b inner) s))
                 = Styles._stack s).
  { apply (use_balanced a _ s sa Ha). now apply neutral_use. }
  split; [|split; [exact Hout|split; [|split; [|split]]]].
  - rewrite (current_style_name_stack (Styles.stack_append a s)).
    + apply current_style_name_append.
    + now apply neutral_use.
  - intros Hs. rewrite (current_style_name_stack s) by exact Hout.
    unfold Styles.current_style_name. now rewrite Hs.
  - intros e.
    destruct (use_balanced a (fun _ => @raise Styles.t A e) s sa Ha)
      as (H1 & _ & H3); [apply neutral_raise|].
    rewrite H1, H3. split; reflexivity.
  - destruct (use_balanced a inner s sa Ha) as (H1 & _); [apply Hn|].
    now rewrite H1.
  - intros body style Hs Hne. rewrite (use_registered _ _ _ _ Hs).
    destruct (body style (Styles.stack_append a s)) as [s' r]. simpl in *.
    destruct (Styles._stack s'); [congruence | reflexivity].
Qed.

Lemma use_nested_restores_witness :
  Styles.current_style_name
    (fst (Styles.use "b" failing_body (Styles.stack_append "a" registry_ab)))
    = "a" /\
  Styles._stack
    (fst (Styles.use "a" (fun _ => Styles.use "b" failing_body) registry_ab))
    = Styles._stack registry_ab /\
  (Styles._stack registry_ab = [] ->
   Styles.current_style_name
     (fst (Styles.use "a" (fun _ => Styles.use "b" failing_body) registry_ab))
     = Styles.DEFAULT_STYLE_NAME) /\
  (forall e : exn,
      length (Styles._stack
                (fst (Styles.use "a" (fun _ => @raise Styles.t unit e)
                        registry_ab)))
        = length (Styles._stack registry_ab) /\
      snd (Styles.use "a" (fun _ => @raise Styles.t unit e) registry_ab)
        = Raise e) /\
  length (Styles._stack (fst (Styles.use "a" failing_body registry_ab)))
    = length (Styles._stack registry_ab) /\
  (forall (body : value -> M Styles.t unit) style,
      Styles._styles registry_ab !! "a" = Some style ->
      Styles._stack (fst (body style (Styles.stack_append "a" registry_ab)))
        <> [] ->
      Styles._stack (fst (Styles.use "a" body registry_ab)) =
      removelast
        (Styles._stack (fst (body style (Styles.stack_append "a" registry_ab))))).
Proof.
  apply (use_nested_restores registry_ab "a" "b" failing_body).
  - eexists. vm_compute. reflexivity.
  - eexists. vm_compute. reflexivity.
  - intros style self. destruct style; reflexivity.
Defined.

(** C5. For a name that is not registered when [use] is called, the scope
    fails with [ValueError] (the specification's NotFound) before anything is
    pushed: the body does not run and the registry, its stack included, is
    as it was. *)
Theorem use_unregistered {A : Type} :
  forall (s : Styles.t) (name : string) (body : value -> M Styles.t A),
    Styles._styles s !! name = None ->
    Styles.use name body s =
      (s, Raise (Exn ValueError ("cannot use unknown style '" ++ name ++ "'")))
    /\ length (Styles._stack (fst (Styles.use name body s)))
       = length (Styles._stack s).
Proof.
  intros s name body H. unfold Styles.use. rewrite H. split; reflexivity.
Qed.

Lemma use_unregistered_witness :
  Styles.use "x" failing_body (Styles.stack_append "a" registry_ab) =
    (Styles.stack_append "a" registry_ab,
     Raise (Exn ValueError "cannot use unknown style 'x'"))
  /\ length (Styles._stack
               (fst (Styles.use "x" failing_body
                       (Styles.stack_append "a" registry_ab))))
     = length (Styles._stack (Styles.stack_append "a" registry_ab)).
Proof.
  apply (use_unregistered (Styles.stack_append "a" registry_ab) "x" failing_body).
  vm_compute. reflexivity.
Defined.

(** C6. [set(name, value)] with a value that is not a dict fails with
    [TypeError] (the specification's InvalidArgument) and leaves the
    registry as it was, so [get(name)] still fails with [KeyError]
    (NotFound) for a name that was not registered.  With a dict, [set]
    stores it under [name], replacing what was there, leaves the other names
    and the stack alone, and returns the stored style. *)
Theorem set_registers_only_dicts :
  forall (s : Styles.t) (name : string) (value : value),
    (isinstance_dict value = false ->
     Styles.set name value s =
       (s, Raise (Exn TypeError
                    ("wrong style type '<class '" ++ class_name value ++
                     "'>', must be a dict"))) /\
     (Styles._styles s !! name = None ->
      Styles.get name (fst (Styles.set name value s)) =
        (s, Raise (Exn KeyError name)))) /\
    (isinstance_dict value = true ->
     snd (Styles.set name value s) = Return value /\
     snd (Styles.get name (fst (Styles.set name value s))) = Return value /\
     (forall other, other <> name ->
        Styles._styles (fst (Styles.set name value s)) !! other =
        Styles._styles s !! other) /\
     Styles._stack (fst (Styles.set name value s)) = Styles._stack s).
Proof.
  intros s name value. split; intros H; unfold Styles.set; rewrite H; simpl.
  - split; [reflexivity|]. intros Hn. unfold Styles.get. now rewrite Hn.
  - split; [reflexivity|]. split; [|split; [|reflexivity]].
    + unfold Styles.get. simpl. now rewrite lookup_insert_eq.
    + intros other Hne. now rewrite lookup_insert_ne.
Qed.

Lemma set_registers_only_dicts_witness :
  (Styles.set "x" (VInt 5) Styles.new =
     (Styles.new,
      Raise (Exn TypeError "wrong style type '<class 'int'>', must be a dict"))
   /\ Styles.get "x" (fst (Styles.set "x" (VInt 5) Styles.new)) =
        (Styles.new, Raise (Exn KeyError "x")))
  /\ snd (Styles.get "default"
            (fst (Styles.set "default" (VDict PyDict [("pad", VInt 1)])
                    Styles.new)))
     = Return (VDict PyDict [("pad", VInt 1)]).
Proof.
  split.
  - destruct (proj1 (set_registers_only_dicts Styles.new "x" (VInt 5)))
      as [H1 H2]; [reflexivity|].
    split; [exact H1 | apply H2; vm_compute; reflexivity].
  - apply (proj2 (set_registers_only_dicts Styles.new "default"
                    (VDict PyDict [("pad", VInt 1)]))).
    reflexivity.
Defined.

Lemma getattr_run (s : Styles.t) (attr : string) :
  Styles.getattr attr s =
    (s, match snd (Styles.current_style s) with
        | Return style => py_getattr style attr
        | Raise e => Raise e
        end).
Proof.
  unfold Styles.getattr, bind, lift, Styles.current_style, Styles.get.
  destruct (Styles._styles s !! Styles.current_style_name s); reflexivity.
Qed.

(** C8, as the code has it.  [__getattr__] forwards the lookup to
    [getattr(current_style, attr)].  When the current style is a [DotDict]
    and [attr] is not a name that its type defines itself (a dict method
    such as [keys] or [copy]), the result is [current_style[attr]] if that
    key is present and an [AttributeError] if it is absent. *)
Theorem getattr_passthrough :
  forall (s : Styles.t) (attr : string),
    Styles.getattr attr s =
      (s, match snd (Styles.current_style s) with
          | Return style => py_getattr style attr
          | Raise e => Raise e
          end) /\
    (forall items,
        snd (Styles.current_style s) = Return (VDict DotDict items) ->
        mem attr (type_attrs DotDict) = false ->
        snd (Styles.getattr attr s) =
          match dict_getitem attr items with
          | Some v => Return v
          | None => Raise (Exn AttributeError attr)
          end).
Proof.
  intros s attr.
  split; [apply getattr_run|].
  intros items Hcur Hattr. rewrite getattr_run, Hcur. simpl in *.
  rewrite Hattr. reflexivity.
Qed.

Lemma getattr_passthrough_witness :
  snd (Styles.getattr "canvas" (Styles.stack_append "b" registry_ab)) =
    match dict_getitem "canvas" [("canvas", VInt 2)] with
    | Some v => Return v
    | None => Raise (Exn AttributeError "canvas")
    end /\
  snd (Styles.getattr "pad" (Styles.stack_append "b" registry_ab)) =
    match dict_getitem "pad" [("canvas", VInt 2)] with
    | Some v => Return v
    | None => Raise (Exn AttributeError "pad")
    end.
Proof.
  split.
  - apply (proj2 (getattr_passthrough (Styles.stack_append "b" registry_ab)
                    "canvas")).
    + vm_compute. reflexivity.
    + reflexivity.
  - apply (proj2 (getattr_passthrough (Styles.stack_append "b" registry_ab)
                    "pad")).
    + vm_compute. reflexivity.
    + reflexivity.
Defined.

(** C8 as stated fails.  A plain dict is accepted by [set], and a key of it
    is not an attribute: [registry.canvas] raises although
    [current_style["canvas"]] is 1.  On a [DotDict], a key named like a dict
    method is shadowed by the method, and such a name is found even when the
    key is absent. *)
Lemma getattr_passthrough_counterexample :
  (snd (Styles.current_style registry_plain)
     = Return (VDict PyDict [("canvas", VInt 1)]) /\
   dict_getitem "canvas" [("canvas", VInt 1)] = Some (VInt 1) /\
   snd (Styles.getattr "canvas" registry_plain)
     = Raise (Exn AttributeError "'dict' object has no attribute 'canvas'")) /\
  (snd (Styles.current_style registry_copy)
     = Return (VDict DotDict [("copy", VInt 1)]) /\
   dict_getitem "copy" [("copy", VInt 1)] = Some (VInt 1) /\
   snd (Styles.getattr "copy" registry_copy)
     = Return (VBoundMethod "copy" (VDict DotDict [("copy", VInt 1)]))) /\
  (snd (Styles.current_style Styles.new) = Return (VDict DotDict []) /\
   snd (Styles.getattr "keys" Styles.new)
     = Return (VBoundMethod "keys" (VDict DotDict []))).
Proof. vm_compute. repeat split. Qed.

(** ** apply_properties and set_color *)

Section ToolsFacts.

Import Tools.

Context {obj_t : Type}.
Variable obj_getattr : obj_t -> string -> option (attribute obj_t).

Abbreviation apply_property := (Tools.apply_property obj_getattr).
Abbreviation apply_loop := (Tools.apply_loop obj_getattr).
Abbreviation apply_properties := (Tools.apply_properties obj_getattr).
Abbreviation resolve_setter := (Tools.resolve_setter obj_getattr).

Lemma run_unit (m : M obj_t unit) obj : (m ;;; ret tt) obj = m obj.
Proof. unfold bind, ret. destruct (m obj) as [obj' [[]|e]]; reflexivity. Qed.

Lemma apply_property_call name v obj setter :
  resolve_setter obj name = Some (Callable setter) ->
  apply_property name v obj = setter (positional_args v) obj.
Proof.
  intros H. unfold Tools.apply_property. rewrite H. destruct v; reflexivity.
Qed.

Lemma apply_property_skip name v obj :
  callable (resolve_setter obj name) = false ->
  apply_property name v obj = (obj, Return tt).
Proof.
  unfold Tools.apply_property.
  destruct (resolve_setter obj name) as [[d|f]|]; simpl;
    [reflexivity | discriminate | reflexivity].
Qed.

Lemma resolve_setter_not_callable name obj :
  callable (obj_getattr obj ("Set" ++ name)) = false ->
  callable (obj_getattr obj name) = false ->
  callable (resolve_setter obj name) = false.
Proof.
  unfold Tools.resolve_setter.
  destruct (obj_getattr obj ("Set" ++ name)) as [[d|f]|]; simpl; auto.
Qed.

(** One wellformed dict as the only source is applied as it is. *)
Lemma apply_properties_single c items obj :
  wf_items items = true ->
  apply_properties (VDict c items) [] obj = apply_loop items obj.
Proof.
  intros Hwf. unfold Tools.apply_properties, bind, lift. simpl.
  rewrite update_empty by now apply wf_items_NoDup. reflexivity.
Qed.

(** C1. [apply_properties] goes through the properties of the mapping in
    order.  For each it takes the attribute ["Set" + name] of the target if
    there is one, and the attribute [name] otherwise.  A callable setter is
    called with the value as its one argument, and with the elements of the
    value as its arguments when the value is a tuple.  When neither
    attribute is callable the property is skipped: no error, the target is
    as it was, and the remaining properties are applied. *)
Theorem apply_properties_resolution :
  forall (obj : obj_t) (c : dict_class) (name : string) (v : value)
         (rest : items_t),
    wf_items ((name, v) :: rest) = true ->
    apply_properties (VDict c ((name, v) :: rest)) [] obj
      = (apply_property name v ;;; apply_loop rest) obj /\
    (forall setter,
        obj_getattr obj ("Set" ++ name) = Some (Callable setter) ->
        (forall vs, v = VTuple vs -> apply_property name v obj = setter vs obj) /\
        (is_tuple v = false -> apply_property name v obj = setter [v] obj)) /\
    (forall setter,
        obj_getattr obj ("Set" ++ name) = None ->
        obj_getattr obj name = Some (Callable setter) ->
        (forall vs, v = VTuple vs -> apply_property name v obj = setter vs obj) /\
        (is_tuple v = false -> apply_property name v obj = setter [v] obj)) /\
    (callable (obj_getattr obj ("Set" ++ name)) = false ->
     callable (obj_getattr obj name) = false ->
     apply_property name v obj = (obj, Return tt) /\
     apply_properties (VDict c ((name, v) :: rest)) [] obj = apply_loop rest obj /\
     apply_properties (VDict c [(name, v)]) [] obj = (obj, Return tt)).
Proof.
  intros obj c name v rest Hwf.
  assert (Hargs : forall setter,
             resolve_setter obj name = Some (Callable setter) ->
             (forall vs, v = VTuple vs -> apply_property name v obj = setter vs obj) /\
             (is_tuple v = false -> apply_property name v obj = setter [v] obj)).
  { intros setter Hr. rewrite (apply_property_call _ _ _ _ Hr). split.
    - now intros vs ->.
    - destruct v; simpl; intros; first [discriminate | reflexivity]. }
  split; [now rewrite apply_properties_single|]. split; [|split].
  - intros setter H. apply Hargs. unfold Tools.resolve_setter. now rewrite H.
  - intros setter H1 H2. apply Hargs. unfold Tools.resolve_setter. now rewrite H1.
  - intros H1 H2.
    pose proof (apply_property_skip name v obj
                  (resolve_setter_not_callable _ _ H1 H2)) as Hskip.
    split; [exact Hskip|]. split.
    + rewrite apply_properties_single by assumption. simpl.
      unfold bind at 1. now rewrite Hskip.
    + rewrite apply_properties_single.
      * simpl. unfold bind, ret. now rewrite Hskip.
      * simpl in *. destruct (dict_getitem name rest); [discriminate | reflexivity].
Qed.

Abbreviation set_color := (Tools.set_color obj_getattr).
Abbreviation set_color_flags := (Tools.set_color_flags obj_getattr).
Abbreviation set_color_attrs := (Tools.set_color_attrs obj_getattr).

Lemma list_not_own_element (l : list value) : [VList l] <> l.
Proof.
  intros H. apply (f_equal (fun x => list_sum (map vsize x))) in H.
  simpl in H. lia.
Qed.

(** C9. [apply_properties] unpacks tuples only: a list value reaches the
    setter as one argument, the list itself.  [set_color] unpacks tuples and
    lists alike.  So for a list [l] the same setter [SetLineColor] is called
    with the argument list [[l]] by [apply_properties] and with the elements
    of [l] by [set_color], and these argument lists are never equal; for a
    tuple both pass the elements. *)
Theorem list_value_dispatch :
  forall (obj : obj_t) (c : dict_class) (name : string) (l : list value),
    (forall setter,
        obj_getattr obj ("Set" ++ name) = Some (Callable setter) ->
        apply_properties (VDict c [(name, VList l)]) [] obj
          = setter [VList l] obj /\
        apply_properties (VDict c [(name, VTuple l)]) [] obj = setter l obj) /\
    (forall func,
        obj_getattr obj "SetLineColor" = Some (Callable func) ->
        apply_properties (VDict c [("LineColor", VList l)]) [] obj
          = func [VList l] obj /\
        set_color (VList l) "l" obj = func l obj /\
        set_color (VTuple l) "l" obj = func l obj) /\
    [VList l] <> l.
Proof.
  intros obj c name l.
  assert (Happly : forall n setter v,
             obj_getattr obj ("Set" ++ n) = Some (Callable setter) ->
             apply_properties (VDict c [(n, v)]) [] obj
               = setter (positional_args v) obj).
  { intros n setter v H. rewrite apply_properties_single by reflexivity.
    simpl. rewrite run_unit. apply apply_property_call.
    unfold Tools.resolve_setter. now rewrite H. }
  split; [|split; [|apply list_not_own_element]].
  - intros setter H. split;
      [apply (Happly name setter (VList l) H)
      |apply (Happly name setter (VTuple l) H)].
  - intros func H. split; [apply (Happly "LineColor" func (VList l) H)|].
    unfold Tools.set_color. simpl. unfold bind at 1 2 3 4. rewrite H.
    unfold ret. destruct (func l obj) as [obj' [[]|e]]; split; reflexivity.
Qed.

Lemma funcs_valid_flag (c : ascii) :
  funcs c = None <-> valid_flag c = false.
Proof.
  unfold funcs, valid_flag. simpl.
  destruct (Ascii.eqb c "l"), (Ascii.eqb c "m"), (Ascii.eqb c "f"),
    (Ascii.eqb c "t"); simpl; split; intros; first [discriminate | reflexivity].
Qed.

(** The flags before the first unknown one are processed, then the error
    is raised; what follows the unknown flag plays no part. *)
Lemma set_color_flags_first_bad color pre bad post obj :
  forallb valid_flag pre = true ->
  funcs bad = None ->
  set_color_flags color (pre ++ bad :: post) obj =
  (set_color_flags color pre ;;; raise (unknown_flag bad)) obj.
Proof.
  intros Hpre Hbad. revert obj.
  induction pre as [|c pre IH]; intros obj; simpl.
  - now rewrite Hbad.
  - simpl in Hpre. apply andb_prop in Hpre as [Hc Hpre].
    destruct (funcs c) as [attrs|] eqn:Ec.
    + rewrite bind_assoc. apply bind_ext. intros _ obj1. now apply IH.
    + apply funcs_valid_flag in Ec. congruence.
Qed.

Lemma first_bad_flag (flags : list ascii) :
  forallb valid_flag flags = false ->
  exists pre bad post,
    flags = pre ++ bad :: post /\
    forallb valid_flag pre = true /\ valid_flag bad = false.
Proof.
  induction flags as [|c flags IH]; simpl; [discriminate|].
  destruct (valid_flag c) eqn:Ec; simpl.
  - intros H. destruct (IH H) as (pre & bad & post & -> & Hpre & Hbad).
    exists (c :: pre), bad, post. simpl. now rewrite Ec.
  - intros _. exists [], c, flags. auto.
Qed.

(** C4. A flag string with a character outside [l], [m], [f], [t] splits
    at the first such character [bad].  [set_color] processes the flags
    before it and then raises [ValueError] (the specification's
    InvalidArgument) naming [bad]; the flags after it are not looked at.
    When the setters of the earlier flags returned, the error comes with
    the target in the state they left.  A setter name of a valid flag that
    is not a callable attribute of the target is skipped. *)
Theorem set_color_fail_fast :
  forall (obj : obj_t) (color : value) (flags : string),
    forallb valid_flag (list_ascii_of_string flags) = false ->
    exists pre bad post,
      list_ascii_of_string flags = pre ++ bad :: post /\
      forallb valid_flag pre = true /\
      valid_flag bad = false /\
      set_color color flags obj =
        (set_color_flags color pre ;;; raise (unknown_flag bad)) obj /\
      (forall obj',
          set_color_flags color pre obj = (obj', Return tt) ->
          set_color color flags obj = (obj', Raise (unknown_flag bad))) /\
      (forall attr rest o,
          callable (obj_getattr o attr) = false ->
          set_color_attrs color (attr :: rest) o = set_color_attrs color rest o).
Proof.
  intros obj color flags H.
  destruct (first_bad_flag _ H) as (pre & bad & post & E & Hpre & Hbad).
  exists pre, bad, post. repeat split; try assumption.
  - unfold Tools.set_color. rewrite E.
    apply set_color_flags_first_bad; [assumption | now apply funcs_valid_flag].
  - intros obj' Hrun. unfold Tools.set_color. rewrite E.
    rewrite set_color_flags_first_bad;
      [| assumption | now apply funcs_valid_flag].
    unfold bind. now rewrite Hrun.
  - intros attr rest o Hc. simpl. unfold bind.
    destruct (obj_getattr o attr) as [[d|f]|]; simpl in *;
      first [discriminate | reflexivity].
Qed.

End ToolsFacts.

Lemma apply_properties_resolution_witness :
  Tools.apply_properties Recorder.getattr
    (VDict DotDict [("Foo", VInt 5); ("Bar", VTuple [VInt 1; VInt 2])]) [] []
  = (Tools.apply_property Recorder.getattr "Foo" (VInt 5) ;;;
     Tools.apply_loop Recorder.getattr [("Bar", VTuple [VInt 1; VInt 2])]) [] /\
  Tools.apply_property Recorder.getattr "Foo" (VInt 5) []
  = ([("SetFoo", [VInt 5])], Return tt) /\
  Tools.apply_property Recorder.getattr "Bar" (VTuple [VInt 1; VInt 2]) []
  = ([("Bar", [VInt 1; VInt 2])], Return tt) /\
  Tools.apply_properties Recorder.getattr
    (VDict PyDict [("Data", VInt 5)]) [] [] = ([], Return tt).
Proof.
  split; [|split; [|split]].
  - apply (apply_properties_resolution Recorder.getattr [] DotDict "Foo"
             (VInt 5) [("Bar", VTuple [VInt 1; VInt 2])]).
    reflexivity.
  - destruct (apply_properties_resolution Recorder.getattr [] DotDict "Foo"
                (VInt 5) []) as (_ & H & _); [reflexivity|].
    apply (proj2 (H (fun args log => (log ++ [("SetFoo", args)], Return tt))
                    eq_refl)).
    reflexivity.
  - destruct (apply_properties_resolution Recorder.getattr [] DotDict "Bar"
                (VTuple [VInt 1; VInt 2]) []) as (_ & _ & H & _); [reflexivity|].
    apply (proj1 (H (fun args log => (log ++ [("Bar", args)], Return tt))
                    eq_refl eq_refl) [VInt 1; VInt 2] eq_refl).
  - destruct (apply_properties_resolution Recorder.getattr [] PyDict "Data"
                (VInt 5) []) as (_ & _ & _ & H); [reflexivity|].
    apply H; reflexivity.
Defined.

Lemma list_value_dispatch_witness :
  Tools.apply_properties Recorder.getattr
    (VDict PyDict [("LineColor", VList [VInt 1; VInt 2; VInt 3])]) [] []
  = ([("SetLineColor", [VList [VInt 1; VInt 2; VInt 3]])], Return tt) /\
  Tools.set_color Recorder.getattr (VList [VInt 1; VInt 2; VInt 3]) "l" []
  = ([("SetLineColor", [VInt 1; VInt 2; VInt 3])], Return tt) /\
  Tools.set_color Recorder.getattr (VTuple [VInt 1; VInt 2; VInt 3]) "l" []
  = ([("SetLineColor", [VInt 1; VInt 2; VInt 3])], Return tt).
Proof.
  apply (proj1 (proj2 (list_value_dispatch Recorder.getattr [] PyDict "Foo"
                         [VInt 1; VInt 2; VInt 3]))
           (fun args log => (log ++ [("SetLineColor", args)], Return tt))).
  reflexivity.
Defined.

Lemma set_color_fail_fast_witness :
  exists pre bad post,
    list_ascii_of_string "lxt" = pre ++ bad :: post /\
    forallb valid_flag pre = true /\
    valid_flag bad = false /\
    Tools.set_color Recorder.getattr (VInt 2) "lxt" [] =
      (Tools.set_color_flags Recorder.getattr (VInt 2) pre ;;;
       raise (unknown_flag bad)) [] /\
    (forall obj',
        Tools.set_color_flags Recorder.getattr (VInt 2) pre [] =
          (obj', Return tt) ->
        Tools.set_color Recorder.getattr (VInt 2) "lxt" [] =
          (obj', Raise (unknown_flag bad))) /\
    (forall attr rest o,
        callable (Recorder.getattr o attr) = false ->
        Tools.set_color_attrs Recorder.getattr (VInt 2) (attr :: rest) o =
        Tools.set_color_attrs Recorder.getattr (VInt 2) rest o).
Proof.
  apply (set_color_fail_fast Recorder.getattr [] (VInt 2) "lxt"). reflexivity.
Defined.

(** ** Errors of apply_properties *)

Section ApplyErrors.

Import Tools.

Context {obj_t : Type}.
Variable obj_getattr : obj_t -> string -> option (attribute obj_t).

Lemma infer_cls_some dicts :
  existsb isinstance_dict dicts = true -> exists c, infer_cls dicts = Return c.
Proof.
  induction dicts as [|d dicts IH]; simpl; [discriminate|].
  destruct d; simpl; eauto.
Qed.

Lemma infer_cls_none dicts :
  existsb isinstance_dict dicts = false -> infer_cls dicts = Raise no_dict_error.
Proof.
  induction dicts as [|d dicts IH]; simpl; [reflexivity|].
  destruct d; simpl; auto; discriminate.
Qed.

(** Entries that are not dicts, [None] among them, add nothing. *)
Lemma merge_loop_filter dicts d :
  merge_loop d dicts = merge_loop d (filter isinstance_dict dicts).
Proof.
  revert d. induction dicts as [|x dicts IH]; intros d; [reflexivity|].
  destruct x; simpl; auto.
Qed.

(** An exception that leaves the loop was raised by a resolved setter. *)
Lemma apply_loop_raise items obj obj' e :
  apply_loop obj_getattr items obj = (obj', Raise e) ->
  exists name v setter obj1,
    In (name, v) items /\
    resolve_setter obj_getattr obj1 name = Some (Callable setter) /\
    setter (positional_args v) obj1 = (obj', Raise e).
Proof.
  revert obj. induction items as [|[name v] items IH]; intros obj; simpl.
  - discriminate.
  - unfold bind.
    destruct (apply_property obj_getattr name v obj) as [obj1 [[]|e1]] eqn:E.
    + intros H. destruct (IH _ H) as (n & w & f & o & Hin & Hr & Hf).
      exists n, w, f, o. auto.
    + intros H. injection H as <- <-.
      destruct (resolve_setter obj_getattr obj name) as [[d|f]|] eqn:Er.
      * rewrite (apply_property_skip obj_getattr name v obj) in E
          by now rewrite Er.
        discriminate.
      * rewrite (apply_property_call obj_getattr name v obj f Er) in E.
        exists name, v, f, obj. auto.
      * rewrite (apply_property_skip obj_getattr name v obj) in E
          by now rewrite Er.
        discriminate.
Qed.

(** C7, as the code has it.  When at least one of the property sources is
    a dict, [apply_properties] raises nothing of its own: the sources that
    are not dicts, [None] among them, are skipped, the merged properties
    are applied in order, an exception that comes out was raised by a
    setter, and none comes out when no setter raises.  When no source is a
    dict, [merge_dicts] fails with its [TypeError] before the target is
    touched. *)
Theorem apply_properties_own_errors :
  forall (obj : obj_t) (props : value) (_props : list value),
    (existsb isinstance_dict (props :: _props) = true ->
     let merged := merge_loop [] (filter isinstance_dict (props :: _props)) in
     apply_properties obj_getattr props _props obj
       = apply_loop obj_getattr merged obj /\
     (forall obj' e,
         apply_properties obj_getattr props _props obj = (obj', Raise e) ->
         exists name v setter obj1,
           In (name, v) merged /\
           resolve_setter obj_getattr obj1 name = Some (Callable setter) /\
           setter (positional_args v) obj1 = (obj', Raise e)) /\
     ((forall o name setter args,
          obj_getattr o name = Some (Callable setter) ->
          exists o', setter args o = (o', Return tt)) ->
      exists obj', apply_properties obj_getattr props _props obj
                   = (obj', Return tt))) /\
    (existsb isinstance_dict (props :: _props) = false ->
     apply_properties obj_getattr props _props obj = (obj, Raise no_dict_error)).
Proof.
  intros obj props _props. split.
  - intros Hd merged.
    assert (E : apply_properties obj_getattr props _props obj
                = apply_loop obj_getattr merged obj).
    { unfold apply_properties, merge_dicts, bind, lift.
      destruct (infer_cls_some _ Hd) as [c ->]. simpl iteritems. cbv iota beta.
      unfold merged. now rewrite <- merge_loop_filter. }
    split; [exact E|]. split.
    + intros obj' e H. rewrite E in H. exact (apply_loop_raise _ _ _ _ H).
    + intros Hok. rewrite E.
      destruct (apply_loop obj_getattr merged obj) as [obj' [[]|e]] eqn:El;
        [now exists obj'|].
      destruct (apply_loop_raise _ _ _ _ El) as (n & w & f & o & _ & Hr & Hf).
      assert (Hg : exists n', obj_getattr o n' = Some (Callable f)).
      { unfold resolve_setter in Hr.
        destruct (obj_getattr o ("Set" ++ n)) eqn:E1.
        - exists ("Set" ++ n)%string. congruence.
        - exists n. exact Hr. }
      destruct Hg as [n' Hg].
      destruct (Hok o n' f (positional_args w) Hg) as [o' Ho']. congruence.
  - intros Hn. unfold apply_properties, merge_dicts, bind, lift.
    now rewrite (infer_cls_none _ Hn).
Qed.

End ApplyErrors.

Lemma apply_properties_own_errors_witness :
  (let merged :=
     merge_loop []
       (filter isinstance_dict
          [VDict DotDict [("Foo", VInt 5)]; VNone;
           VDict PyDict [("Foo", VTuple [VInt 1; VInt 2]); ("Nope", VInt 3)]]) in
   Tools.apply_properties Recorder.getattr (VDict DotDict [("Foo", VInt 5)])
     [VNone; VDict PyDict [("Foo", VTuple [VInt 1; VInt 2]); ("Nope", VInt 3)]] []
   = Tools.apply_loop Recorder.getattr merged [] /\
   (forall obj' e,
       Tools.apply_properties Recorder.getattr (VDict DotDict [("Foo", VInt 5)])
         [VNone; VDict PyDict [("Foo", VTuple [VInt 1; VInt 2]); ("Nope", VInt 3)]]
         [] = (obj', Raise e) ->
       exists name v setter obj1,
         In (name, v) merged /\
         Tools.resolve_setter Recorder.getattr obj1 name
           = Some (Tools.Callable setter) /\
         setter (positional_args v) obj1 = (obj', Raise e)) /\
   ((forall o name setter args,
        Recorder.getattr o name = Some (Tools.Callable setter) ->
        exists o', setter args o = (o', Return tt)) ->
    exists obj',
      Tools.apply_properties Recorder.getattr (VDict DotDict [("Foo", VInt 5)])
        [VNone; VDict PyDict [("Foo", VTuple [VInt 1; VInt 2]); ("Nope", VInt 3)]]
        [] = (obj', Return tt))) /\
  Tools.apply_properties Recorder.getattr (VInt 3) [VNone] []
  = ([], Raise no_dict_error).
Proof.
  split.
  - apply (proj1 (apply_properties_own_errors Recorder.getattr []
                    (VDict DotDict [("Foo", VInt 5)])
                    [VNone; VDict PyDict [("Foo", VTuple [VInt 1; VInt 2]);
                                          ("Nope", VInt 3)]])).
    reflexivity.
  - apply (proj2 (apply_properties_own_errors Recorder.getattr []
                    (VInt 3) [VNone])).
    reflexivity.
Defined.

(** C7 as stated fails: [apply_properties(obj, None, None)] raises the
    [TypeError] of [merge_dicts], an error that no setter raised (none was
    called: the log of the target is empty). *)
Lemma apply_properties_own_errors_counterexample :
  Tools.apply_properties Recorder.getattr VNone [VNone] []
  = ([], Raise (Exn TypeError
        "cannot infer cls as none of the passed objects is of type dict")).
Proof. reflexivity. Qed.

(** ** get_pad_coordinates *)

Section PadFacts.

Import Tools.

(** Decide the comparisons of string literals in the goal. *)
Ltac eval_eqb :=
  repeat match goal with
         | |- context [String.eqb ?a ?b] =>
             let r := eval vm_compute in (String.eqb a b) in
             change (String.eqb a b) with r
         end;
  cbv iota.

Lemma mem_In x l : mem x l = true -> In x l.
Proof.
  unfold mem. rewrite existsb_exists. intros (y & Hin & Heq).
  apply String.eqb_eq in Heq. now subst.
Qed.

Lemma sub_from_float f b :
  float_ok b = true -> exists g, py_sub (VFloat f) b = Return (VFloat g).
Proof.
  unfold py_sub, num_binop, float_ok. simpl.
  destruct (as_num b) as [[z|g]|]; simpl; [| eauto | discriminate].
  destruct (float_of_Z z); [eauto | discriminate].
Qed.

Lemma add_to_float f b :
  float_ok b = true -> exists g, py_add (VFloat f) b = Return (VFloat g).
Proof.
  unfold py_add, num_binop, float_ok. simpl.
  destruct (as_num b) as [[z|g]|]; simpl; [| eauto | discriminate].
  destruct (float_of_Z z); [eauto | discriminate].
Qed.

Lemma add_numbers a b :
  float_ok a = true -> float_ok b = true -> exists c, py_add a b = Return c.
Proof.
  unfold float_ok. intros Ha Hb.
  assert (E : py_add a b = num_binop "+" Z.add PrimFloat.add a b).
  { destruct a; try reflexivity; discriminate. }
  rewrite E. unfold num_binop.
  destruct (as_num a) as [[x|x]|]; [| |discriminate];
    (destruct (as_num b) as [[y|y]|]; [| |discriminate]); simpl in *;
    repeat match goal with
           | H : match float_of_Z ?z with _ => _ end = true |- _ =>
               destruct (float_of_Z z); [|discriminate]
           end; eauto.
Qed.

Lemma bind_pad_attr {B} name (k : value -> M Styles.t B) s pad m :
  snd (Styles.getattr "pad" s) = Return pad ->
  py_getattr pad name = Return m ->
  bind (pad_attr name) k s = k m s.
Proof.
  intros Hp Hm. unfold pad_attr, bind at 1 2, lift.
  rewrite getattr_run in *. simpl in Hp. rewrite Hp, Hm. reflexivity.
Qed.

Lemma bind_lift {B} (r : outcome value) (k : value -> M Styles.t B) s a :
  r = Return a -> bind (lift r) k s = k a s.
Proof. now intros ->. Qed.

Section Positions.

Variables (s : Styles.t) (pad : value).
Hypothesis Hpad : snd (Styles.getattr "pad" s) = Return pad.
Hypothesis Hmargins :
  forall name, In name margins ->
    exists m, py_getattr pad name = Return m /\ float_ok m = true.

Lemma x_position_returns h h_offset :
  In h h_values -> float_ok h_offset = true ->
  exists x, x_position h h_offset s = (s, Return x).
Proof.
  intros Hh Ho.
  destruct (Hmargins "LeftMargin") as (lm & Hl & Hlm); [simpl; auto|].
  destruct (Hmargins "RightMargin") as (rm & Hr & Hrm); [simpl; auto|].
  destruct (sub_from_float 1%float rm Hrm) as [a Ha].
  assert (Hcase : h = "l" \/ h = "c" \/ h = "r") by (simpl in Hh; intuition).
  destruct Hcase as [-> | [-> | ->]]; unfold x_position; eval_eqb.
  - destruct (add_numbers lm h_offset Hlm Ho) as [x Hx].
    exists x.
    rewrite (bind_pad_attr _ _ _ _ _ Hpad Hl). unfold lift. now rewrite Hx.
  - destruct (add_to_float a lm Hlm) as [b Hb]. eexists.
    rewrite (bind_pad_attr _ _ _ _ _ Hpad Hr), (bind_lift _ _ _ _ Ha).
    rewrite (bind_pad_attr _ _ _ _ _ Hpad Hl), (bind_lift _ _ _ _ Hb).
    reflexivity.
  - destruct (sub_from_float a h_offset Ho) as [x Hx]. exists (VFloat x).
    rewrite (bind_pad_attr _ _ _ _ _ Hpad Hr), (bind_lift _ _ _ _ Ha).
    unfold lift. now rewrite Hx.
Qed.

Lemma y_position_returns v v_offset :
  In v v_values -> float_ok v_offset = true ->
  exists y, y_position v v_offset s = (s, Return y).
Proof.
  intros Hv Ho.
  destruct (Hmargins "TopMargin") as (tm & Ht & Htm); [simpl; auto|].
  destruct (Hmargins "BottomMargin") as (bm & Hb & Hbm); [simpl; auto|].
  destruct (sub_from_float 1%float tm Htm) as [a Ha].
  assert (Hcase : v = "t" \/ v = "c" \/ v = "b") by (simpl in Hv; intuition).
  destruct Hcase as [-> | [-> | ->]]; unfold y_position; eval_eqb.
  - destruct (sub_from_float a v_offset Ho) as [y Hy]. exists (VFloat y).
    rewrite (bind_pad_attr _ _ _ _ _ Hpad Ht), (bind_lift _ _ _ _ Ha).
    unfold lift. now rewrite Hy.
  - destruct (add_to_float a bm Hbm) as [b Hab]. eexists.
    rewrite (bind_pad_attr _ _ _ _ _ Hpad Ht), (bind_lift _ _ _ _ Ha).
    rewrite (bind_pad_attr _ _ _ _ _ Hpad Hb), (bind_lift _ _ _ _ Hab).
    reflexivity.
  - destruct (add_numbers bm v_offset Hbm Ho) as [y Hy]. exists y.
    rewrite (bind_pad_attr _ _ _ _ _ Hpad Hb). unfold lift. now rewrite Hy.
Qed.

End Positions.

(** C10. A horizontal position other than ["l"], ["c"], ["r"] makes
    [get_pad_coordinates] raise [ValueError] (the specification's
    InvalidArgument) naming the value and the allowed ones, and so does,
    for a valid horizontal one, a vertical position other than ["t"],
    ["c"], ["b"].  Both happen before the style is read: the registry may
    hold anything.  For valid positions the result is a pair [(x, y)], the
    active style providing the four pad margins as numbers and the offsets
    in effect being numbers. *)
Theorem get_pad_coordinates_positions :
  forall (s : Styles.t) (h v : string) (offset h_offset v_offset : value),
    (mem h h_values = false ->
     get_pad_coordinates h v offset h_offset v_offset s =
       (s, Raise (Exn ValueError
                    ("unknown horizontal position '" ++ h ++
                     "', allowed values are ('l', 'c', 'r')")))) /\
    (mem h h_values = true -> mem v v_values = false ->
     get_pad_coordinates h v offset h_offset v_offset s =
       (s, Raise (Exn ValueError
                    ("unknown vertical position '" ++ v ++
                     "', allowed values are ('t', 'c', 'b')")))) /\
    (mem h h_values = true -> mem v v_values = true ->
     forall pad,
       snd (Styles.getattr "pad" s) = Return pad ->
       (forall name, In name margins ->
          exists m, py_getattr pad name = Return m /\ float_ok m = true) ->
       float_ok (if is_None h_offset then offset else h_offset) = true ->
       float_ok (if is_None v_offset then offset else v_offset) = true ->
       exists x y,
         get_pad_coordinates h v offset h_offset v_offset s =
           (s, Return (VTuple [x; y]))).
Proof.
  intros s h v offset h_offset v_offset. split; [|split].
  - intros Hh. unfold get_pad_coordinates. now rewrite Hh.
  - intros Hh Hv. unfold get_pad_coordinates. now rewrite Hh, Hv.
  - intros Hh Hv pad Hpad Hm Hho Hvo.
    destruct (x_position_returns s pad Hpad Hm h _ (mem_In _ _ Hh) Hho)
      as [x Hx].
    destruct (y_position_returns s pad Hpad Hm v _ (mem_In _ _ Hv) Hvo)
      as [y Hy].
    exists x, y. unfold get_pad_coordinates. rewrite Hh, Hv.
    cbn [negb]. cbv zeta. unfold bind at 1. rewrite Hx.
    unfold bind. now rewrite Hy.
Qed.

End PadFacts.

Lemma get_pad_coordinates_positions_witness :
  Tools.get_pad_coordinates "x" "t" Tools.default_offset VNone VNone Styles.new
    = (Styles.new,
       Raise (Exn ValueError
         "unknown horizontal position 'x', allowed values are ('l', 'c', 'r')"))
  /\
  Tools.get_pad_coordinates "c" "top" Tools.default_offset VNone VNone Styles.new
    = (Styles.new,
       Raise (Exn ValueError
         "unknown vertical position 'top', allowed values are ('t', 'c', 'b')"))
  /\
  exists x y,
    Tools.get_pad_coordinates "l" "b" Tools.default_offset VNone (VInt 1)
      registry_pad
    = (registry_pad, Return (VTuple [x; y])).
Proof.
  split; [|split].
  - apply (proj1 (get_pad_coordinates_positions Styles.new "x" "t"
                    Tools.default_offset VNone VNone)).
    reflexivity.
  - apply (proj1 (proj2 (get_pad_coordinates_positions Styles.new "c" "top"
                           Tools.default_offset VNone VNone)));
      reflexivity.
  - apply (proj2 (proj2 (get_pad_coordinates_positions registry_pad "l" "b"
                           Tools.default_offset VNone (VInt 1)))
             eq_refl eq_refl
             (VDict DotDict
                [("TopMargin", VFloat 0.0625%float);
                 ("RightMargin", VFloat 0.125%float);
                 ("BottomMargin", VInt 0);
                 ("LeftMargin", VFloat 0.25%float)])).
    + vm_compute. reflexivity.
    + intros name [<- | [<- | [<- | [<- | []]]]]; eexists;
        (split; [reflexivity | vm_compute; reflexivity]).
    + vm_compute. reflexivity.
    + vm_compute. reflexivity.
Defined.

(** * Further properties of the code *)

(** ** merge_dicts *)

Section MergeMore.

Implicit Types (d src : items_t) (k : string) (v : value).

Lemma infer_cls_filter dicts :
  infer_cls (List.filter isinstance_dict dicts) = infer_cls dicts.
Proof.
  induction dicts as [|x dicts IH]; [reflexivity|].
  destruct x; simpl; auto.
Qed.

Lemma merge_loop_skip d dicts :
  merge_loop d (List.filter isinstance_dict dicts) = merge_loop d dicts.
Proof.
  revert d. induction dicts as [|x dicts IH]; intros d; [reflexivity|].
  destruct x; simpl; auto.
Qed.

Lemma existsb_dict_split dicts :
  existsb isinstance_dict dicts = true ->
  exists pre c d rest,
    dicts = pre ++ VDict c d :: rest /\
    existsb isinstance_dict pre = false.
Proof.
  induction dicts as [|x dicts IH]; simpl; [discriminate|].
  destruct (isinstance_dict x) eqn:Ex; simpl.
  - intros _. destruct x; try discriminate. exists [], cls, items, dicts. auto.
  - intros H. destruct (IH H) as (pre & c & d & rest & -> & Hpre).
    exists (x :: pre), c, d, rest. simpl. now rewrite Ex.
Qed.

Lemma infer_cls_first pre c d rest :
  existsb isinstance_dict pre = false ->
  infer_cls (pre ++ VDict c d :: rest) = Return c.
Proof.
  induction pre as [|x pre IH]; simpl; [reflexivity|].
  destruct x; simpl; auto; discriminate.
Qed.

Lemma getitem_In_wf k v d :
  wf_items d = true -> In (k, v) d -> dict_getitem k d = Some v.
Proof.
  induction d as [|[k0 v0] d IH]; simpl; [tauto|].
  destruct (dict_getitem k0 d) eqn:E0; [discriminate|].
  intros Hwf [Heq|Hin].
  - injection Heq as -> ->. now rewrite String.eqb_refl.
  - destruct (String.eqb_spec k k0) as [->|Hne]; [|auto].
    rewrite (IH Hwf Hin) in E0. discriminate.
Qed.

Lemma setitem_same k v d :
  dict_getitem k d = Some v -> dict_setitem k v d = d.
Proof.
  induction d as [|[k0 v0] d IH]; simpl; [discriminate|].
  destruct (String.eqb_spec k k0) as [->|Hne].
  - now intros [= ->].
  - intros H. now rewrite IH.
Qed.

Lemma update_same src d :
  (forall k v, In (k, v) src -> dict_getitem k d = Some v) ->
  dict_update d src = d.
Proof.
  unfold dict_update. induction src as [|[k v] src IH]; simpl; intros H;
    [reflexivity|].
  rewrite setitem_same by (apply H; now left). apply IH.
  intros k' v' Hin. apply H. now right.
Qed.

Lemma mem_keys_In k (l : list string) : mem k l = true <-> In k l.
Proof.
  unfold mem. rewrite existsb_exists. split.
  - intros (y & Hin & Heq). apply String.eqb_eq in Heq. now subst.
  - intros Hin. exists k. split; [assumption | apply String.eqb_refl].
Qed.

Lemma filter_fresh_ext (l : list string) (ks : list string) k :
  ~ In k l ->
  List.filter (fun x => negb (mem x (ks ++ [k]))) l =
  List.filter (fun x => negb (mem x ks)) l.
Proof.
  intros Hnin. apply List.filter_ext_in. intros x Hx. f_equal.
  unfold mem. rewrite existsb_app. simpl.
  destruct (String.eqb_spec x k) as [->|Hne]; [contradiction|].
  now rewrite !orb_false_r.
Qed.

(** The keys after an update: those of [d] in place, then the new ones in
    the order of [src]. *)
Lemma keys_update src d :
  wf_items src = true ->
  keys (dict_update d src) =
  keys d ++ List.filter (fun x => negb (mem x (keys d))) (keys src).
Proof.
  unfold dict_update. revert d.
  induction src as [|[k v] src IH]; simpl; intros d Hwf.
  - now rewrite app_nil_r.
  - destruct (dict_getitem k src) eqn:Ek; [discriminate|].
    apply getitem_None_notin in Ek.
    rewrite IH by assumption.
    destruct (mem k (keys d)) eqn:Em; simpl.
    + apply mem_keys_In in Em. now rewrite keys_setitem_in.
    + assert (Hnin : ~ In k (keys d)).
      { intros Hin. apply mem_keys_In in Hin. congruence. }
      rewrite setitem_notin by assumption. unfold keys at 1 2.
      rewrite map_app. simpl. rewrite <- app_assoc. simpl.
      fold (keys d). fold (keys src). now rewrite filter_fresh_ext.
Qed.

Lemma last_value_loop k dicts d :
  forallb wf_value dicts = true ->
  dict_getitem k (merge_loop d dicts) =
  match last_value k dicts with
  | Some v => Some v
  | None => dict_getitem k d
  end.
Proof.
  revert d. induction dicts as [|x dicts IH]; simpl; intros d Hwf;
    [reflexivity|].
  apply andb_prop in Hwf as [Hx Hwf].
  destruct x; simpl in *; rewrite IH by assumption;
    destruct (last_value k dicts); try reflexivity.
  rewrite getitem_update by assumption. reflexivity.
Qed.

End MergeMore.

(** X1. [merge_dicts] raises, and then its [TypeError], exactly when no
    class is given and none of the arguments is a dict, no arguments at all
    included; with a class given it always returns, an empty dict of that
    class when there is nothing to merge. *)
Theorem merge_dicts_raises_iff :
  forall (dicts : list value) (cls : option dict_class),
    (cls = None /\ existsb isinstance_dict dicts = false ->
     merge_dicts dicts cls = Raise no_dict_error) /\
    (cls <> None \/ existsb isinstance_dict dicts = true ->
     exists c items, merge_dicts dicts cls = Return (VDict c items)) /\
    (forall e, merge_dicts dicts cls = Raise e ->
               e = no_dict_error /\ cls = None /\
               existsb isinstance_dict dicts = false) /\
    (forall c, existsb isinstance_dict dicts = false ->
               merge_dicts dicts (Some c) = Return (VDict c [])).
Proof.
  intros dicts cls. split; [|split; [|split]].
  - intros [-> H]. unfold merge_dicts. now rewrite infer_cls_none.
  - intros [H|H].
    + destruct cls as [c|]; [|congruence]. unfold merge_dicts. eauto.
    + unfold merge_dicts. destruct cls as [c|]; [eauto|].
      destruct (infer_cls_some _ H) as [c ->]. eauto.
  - intros e. unfold merge_dicts. destruct cls as [c|]; [discriminate|].
    destruct (existsb isinstance_dict dicts) eqn:E.
    + destruct (infer_cls_some _ E) as [c ->]. discriminate.
    + rewrite infer_cls_none by assumption. intros [= <-]. auto.
  - intros c H. unfold merge_dicts. f_equal. f_equal.
    rewrite <- merge_loop_skip.
    assert (E : List.filter isinstance_dict dicts = []).
    { clear c. induction dicts as [|x dicts IH]; [reflexivity|].
      simpl in *. destruct (isinstance_dict x); [discriminate|]. auto. }
    now rewrite E.
Qed.

Lemma merge_dicts_raises_iff_witness :
  merge_dicts [] None = Raise no_dict_error /\
  merge_dicts [VNone; VInt 3] None = Raise no_dict_error /\
  (exists c items,
      merge_dicts [VNone; VDict DotDict [("a", VInt 1)]] None =
      Return (VDict c items)) /\
  merge_dicts [VNone] (Some DotDict) = Return (VDict DotDict []).
Proof.
  split; [|split; [|split]].
  - apply (proj1 (merge_dicts_raises_iff [] None)). split; reflexivity.
  - apply (proj1 (merge_dicts_raises_iff [VNone; VInt 3] None)).
    split; reflexivity.
  - apply (proj1 (proj2 (merge_dicts_raises_iff
                           [VNone; VDict DotDict [("a", VInt 1)]] None))).
    right. reflexivity.
  - apply (proj2 (proj2 (proj2 (merge_dicts_raises_iff [VNone] (Some DotDict))))).
    reflexivity.
Defined.

(** X2. Arguments that are not dicts play no part: the result, an error
    included, is that of merging the dicts among the arguments alone. *)
Theorem merge_dicts_skips_non_dicts :
  forall (dicts : list value) (cls : option dict_class),
    merge_dicts dicts cls = merge_dicts (List.filter isinstance_dict dicts) cls.
Proof.
  intros dicts cls. unfold merge_dicts.
  rewrite infer_cls_filter, merge_loop_skip. reflexivity.
Qed.

(** X3. The class of the result is the one given as [cls]; without it,
    the class of the first argument that is a dict, whatever the classes of
    the later ones. *)
Theorem merge_dicts_class :
  forall (dicts : list value) (cls : option dict_class) c items,
    merge_dicts dicts cls = Return (VDict c items) ->
    match cls with
    | Some c' => c = c'
    | None =>
        exists pre d rest,
          dicts = pre ++ VDict c d :: rest /\
          existsb isinstance_dict pre = false
    end.
Proof.
  intros dicts cls c items. unfold merge_dicts. destruct cls as [c'|].
  - now intros [= <- _].
  - destruct (existsb isinstance_dict dicts) eqn:E.
    + destruct (existsb_dict_split _ E) as (pre & c0 & d & rest & -> & Hpre).
      rewrite infer_cls_first by assumption. intros [= <- _].
      exists pre, d, rest. auto.
    + rewrite infer_cls_none by assumption. discriminate.
Qed.

Lemma merge_dicts_class_witness :
  exists pre d rest,
    [VNone; VDict DotDict [("a", VInt 1)]; VDict PyDict [("b", VInt 2)]] =
    pre ++ VDict DotDict d :: rest /\
    existsb isinstance_dict pre = false.
Proof.
  apply (merge_dicts_class
           [VNone; VDict DotDict [("a", VInt 1)]; VDict PyDict [("b", VInt 2)]]
           None DotDict [("a", VInt 1); ("b", VInt 2)]).
  reflexivity.
Defined.

(** X4. For any number of arguments: a key of the merged dict has the
    value it has in the last dict among the arguments with that key, and a
    key that none of them has is absent. *)
Theorem merge_dicts_last_value :
  forall (dicts : list value) (cls : option dict_class) c merged k,
    forallb wf_value dicts = true ->
    merge_dicts dicts cls = Return (VDict c merged) ->
    dict_getitem k merged = last_value k dicts.
Proof.
  intros dicts cls c merged k Hwf. unfold merge_dicts.
  destruct (match cls with Some c0 => Return c0 | None => infer_cls dicts end);
    [|discriminate].
  intros [= _ <-]. rewrite last_value_loop by assumption.
  destruct (last_value k dicts); reflexivity.
Qed.

Lemma merge_dicts_last_value_witness :
  dict_getitem "b" [("a", VInt 1); ("b", VInt 4); ("c", VInt 3)] =
  last_value "b" [VDict PyDict [("a", VInt 1); ("b", VInt 2)]; VNone;
                  VDict PyDict [("b", VInt 3); ("c", VInt 3)];
                  VDict DotDict [("b", VInt 4)]].
Proof.
  apply (merge_dicts_last_value
           [VDict PyDict [("a", VInt 1); ("b", VInt 2)]; VNone;
            VDict PyDict [("b", VInt 3); ("c", VInt 3)];
            VDict DotDict [("b", VInt 4)]] None PyDict); reflexivity.
Defined.

(** X5. The merged dict has every key once, whatever the arguments.  For
    two dicts its keys are those of the first in their order, followed by
    the keys that only the second has, in the order of the second: a key
    that is overridden keeps its place. *)
Theorem merge_dicts_keys :
  forall (dicts : list value) (cls : option dict_class) c merged,
    merge_dicts dicts cls = Return (VDict c merged) ->
    wf_items merged = true /\
    (forall ca cb A B,
        dicts = [VDict ca A; VDict cb B] ->
        wf_items A = true -> wf_items B = true ->
        keys merged =
        keys A ++ List.filter (fun k => negb (mem k (keys A))) (keys B)).
Proof.
  intros dicts cls c merged. unfold merge_dicts.
  destruct (match cls with Some c0 => Return c0 | None => infer_cls dicts end);
    [|discriminate].
  intros [= _ <-]. split.
  - apply wf_items_NoDup, merge_loop_NoDup. constructor.
  - intros ca cb A B -> HA HB. simpl.
    rewrite update_empty by now apply wf_items_NoDup.
    now apply keys_update.
Qed.

Lemma merge_dicts_keys_witness :
  wf_items [("a", VInt 1); ("b", VInt 3); ("c", VInt 4)] = true /\
  (forall ca cb A B,
      [VDict PyDict [("a", VInt 1); ("b", VInt 2)];
       VDict PyDict [("c", VInt 4); ("b", VInt 3)]] = [VDict ca A; VDict cb B] ->
      wf_items A = true -> wf_items B = true ->
      keys [("a", VInt 1); ("b", VInt 3); ("c", VInt 4)] =
      keys A ++ List.filter (fun k => negb (mem k (keys A))) (keys B)).
Proof.
  apply (merge_dicts_keys
           [VDict PyDict [("a", VInt 1); ("b", VInt 2)];
            VDict PyDict [("c", VInt 4); ("b", VInt 3)]] None PyDict).
  reflexivity.
Defined.

(** X6. Merging a dict alone gives an equal dict, merging it with itself
    changes nothing, and an empty dict on either side adds nothing. *)
Theorem merge_dicts_identity :
  forall (c : dict_class) (A : items_t) (ce : dict_class),
    wf_items A = true ->
    merge_dicts [VDict c A] None = Return (VDict c A) /\
    merge_dicts [VDict c A; VDict c A] None = Return (VDict c A) /\
    merge_dicts [VDict c A; VDict ce []] None = Return (VDict c A) /\
    merge_dicts [VDict ce []; VDict c A] None = Return (VDict ce A).
Proof.
  intros c A ce Hwf.
  assert (HA : dict_update [] A = A) by now apply update_empty, wf_items_NoDup.
  unfold merge_dicts. simpl. rewrite HA. repeat split.
  rewrite update_same; [reflexivity|].
  intros k v Hin. now apply getitem_In_wf.
Qed.

Lemma merge_dicts_identity_witness :
  merge_dicts [VDict DotDict [("a", VInt 1); ("b", VInt 2)]] None =
    Return (VDict DotDict [("a", VInt 1); ("b", VInt 2)]) /\
  merge_dicts [VDict DotDict [("a", VInt 1); ("b", VInt 2)];
               VDict DotDict [("a", VInt 1); ("b", VInt 2)]] None =
    Return (VDict DotDict [("a", VInt 1); ("b", VInt 2)]) /\
  merge_dicts [VDict DotDict [("a", VInt 1); ("b", VInt 2)]; VDict PyDict []]
    None = Return (VDict DotDict [("a", VInt 1); ("b", VInt 2)]) /\
  merge_dicts [VDict PyDict []; VDict DotDict [("a", VInt 1); ("b", VInt 2)]]
    None = Return (VDict PyDict [("a", VInt 1); ("b", VInt 2)]).
Proof.
  apply (merge_dicts_identity DotDict [("a", VInt 1); ("b", VInt 2)] PyDict).
  reflexivity.
Defined.

(** ** DotDict and the registry *)



Section RegistryMore.

Import Styles.

Lemma match_snoc {A B} (l : list A) (x : A) (a b : B) :
  match l ++ [x] with [] => a | _ :: _ => b end = b.
Proof. destruct l; reflexivity. Qed.

Lemma stack_roundtrip name s :
  mk (removelast (_stack (stack_append name s))) (_styles s) = s.
Proof.
  destruct s as [stack styles]. unfold stack_append. simpl.
  now rewrite removelast_last.
Qed.

Lemma current_style_name_registered s :
  wf_registry s -> is_Some (_styles s !! current_style_name s).
Proof.
  intros (Hd & Hs & _). unfold current_style_name.
  destruct (_stack s) as [|x l] eqn:E; [exact Hd|].
  apply Hs.
  destruct (exists_last (l := x :: l)) as (l' & y & ->); [discriminate|].
  rewrite last_last. apply in_or_app. right. now left.
Qed.

Lemma wf_registry_set s name style :
  wf_registry s -> wf_registry (fst (set name style s)).
Proof.
  intros (Hd & Hs & Hv). unfold set.
  destruct (isinstance_dict style) eqn:E; simpl; [|now repeat split].
  assert (Hkeep : forall n, is_Some (_styles s !! n) ->
                            is_Some (<[name:=style]> (_styles s) !! n)).
  { intros n Hn. destruct (decide (name = n)) as [->|Hne].
    - rewrite lookup_insert_eq. eauto.
    - now rewrite lookup_insert_ne. }
  repeat split; simpl.
  - now apply Hkeep.
  - intros n Hn. apply Hkeep. now apply Hs.
  - intros n v. destruct (decide (name = n)) as [->|Hne].
    + rewrite lookup_insert_eq. now intros [= <-].
    + rewrite lookup_insert_ne by assumption. apply Hv.
Qed.

Lemma wf_registry_append s name :
  wf_registry s -> is_Some (_styles s !! name) ->
  wf_registry (stack_append name s).
Proof.
  intros (Hd & Hs & Hv) Hn. repeat split; simpl; try assumption.
  intros n Hin. apply in_app_or in Hin as [Hin|[<-|[]]]; auto.
Qed.

Lemma wf_registry_pop s :
  wf_registry s -> wf_registry (mk (removelast (_stack s)) (_styles s)).
Proof.
  intros (Hd & Hs & Hv). repeat split; simpl; try assumption.
  intros n Hin. apply Hs.
  destruct (_stack s) as [|x l] eqn:E; [destruct Hin|].
  destruct (exists_last (l := x :: l)) as (l' & y & Heq); [discriminate|].
  rewrite Heq in *. rewrite removelast_last in Hin.
  apply in_or_app. now left.
Qed.

End RegistryMore.

(** X8. The invariant of the registry: the default style is registered,
    the stack holds registered names only, every registered style is a
    dict.  It holds after construction and is kept by [set], whatever its
    arguments, and by a scope [use] around a body that keeps it.  Under it
    the current style is always found and is a dict. *)
Theorem registry_invariant :
  wf_registry Styles.new /\
  forall s : Styles.t,
    wf_registry s ->
    (forall name style, wf_registry (fst (Styles.set name style s))) /\
    (forall (A : Type) name (body : value -> M Styles.t A),
        (forall style s', wf_registry s' -> wf_registry (fst (body style s'))) ->
        wf_registry (fst (Styles.use name body s))) /\
    (exists style,
        Styles.current_style s = (s, Return style) /\
        isinstance_dict style = true).
Proof.
  split.
  - unfold wf_registry, Styles.new, Styles.init, Styles.set. simpl.
    split; [rewrite lookup_insert_eq; eauto|]. split; [intros ? []|].
    intros n v. destruct (decide (Styles.DEFAULT_STYLE_NAME = n)) as [<-|Hne].
    + rewrite lookup_insert_eq. now intros [= <-].
    + rewrite lookup_insert_ne by assumption. rewrite lookup_empty.
      discriminate.
  - intros s Hwf. split; [|split].
    + intros name style. now apply wf_registry_set.
    + intros A name body Hbody.
      destruct (Styles._styles s !! name) as [style|] eqn:E.
      * rewrite (use_registered _ _ _ _ E).
        assert (Hin : wf_registry (Styles.stack_append name s))
          by (apply wf_registry_append; [assumption | rewrite E; eauto]).
        specialize (Hbody style _ Hin).
        destruct (body style (Styles.stack_append name s)) as [s' r].
        simpl in Hbody. pose proof (wf_registry_pop _ Hbody) as Hpop.
        destruct (Styles._stack s'); [exact Hbody | exact Hpop].
      * unfold Styles.use. now rewrite E.
    + destruct (current_style_name_registered s Hwf) as [style Hs].
      exists style. unfold Styles.current_style, Styles.get. rewrite Hs.
      split; [reflexivity|]. destruct Hwf as (_ & _ & Hv). eapply Hv, Hs.
Qed.

(** X9. Inside a scope [use(name)] the named style is the current one:
    the body receives the style registered under [name], attribute access on
    the registry reads that style, and a body that only reads leaves the
    registry exactly as it was. *)
Theorem use_activates :
  forall (s : Styles.t) (name : string) (style : value) (attr : string),
    Styles._styles s !! name = Some style ->
    Styles.use name (fun yielded => ret yielded) s = (s, Return style) /\
    Styles.use name (fun _ => Styles.current_style) s = (s, Return style) /\
    Styles.use name (fun _ => Styles.getattr attr) s
      = (s, py_getattr style attr).
Proof.
  intros s name style attr H.
  assert (Hcur : Styles.current_style (Styles.stack_append name s)
                 = (Styles.stack_append name s, Return style)).
  { unfold Styles.current_style, Styles.get.
    rewrite current_style_name_append. simpl. now rewrite H. }
  assert (Hne : Styles._stack (Styles.stack_append name s) =
                Styles._stack s ++ [name]) by reflexivity.
  assert (Hpop : forall A (r : outcome A),
             match Styles._stack (Styles.stack_append name s) with
             | [] => (Styles.stack_append name s,
                      Raise (Exn IndexError "pop from empty list"))
             | _ :: _ =>
                 (Styles.mk
                    (removelast (Styles._stack (Styles.stack_append name s)))
                    (Styles._styles (Styles.stack_append name s)), r)
             end = (s, r)).
  { intros A r. rewrite Hne at 1.
    destruct (Styles._stack s ++ [name]) eqn:E.
    - destruct (Styles._stack s); discriminate.
    - simpl Styles._styles. now rewrite stack_roundtrip. }
  split; [|split]; rewrite (use_registered _ _ _ _ H).
  - unfold ret. apply Hpop.
  - rewrite Hcur. apply Hpop.
  - rewrite getattr_run, Hcur. simpl snd. apply Hpop.
Qed.

Lemma use_activates_witness :
  Styles.use "b" (fun yielded => ret yielded) registry_ab
    = (registry_ab, Return (VDict DotDict [("canvas", VInt 2)])) /\
  Styles.use "b" (fun _ => Styles.current_style) registry_ab
    = (registry_ab, Return (VDict DotDict [("canvas", VInt 2)])) /\
  Styles.use "b" (fun _ => Styles.getattr "canvas") registry_ab
    = (registry_ab, py_getattr (VDict DotDict [("canvas", VInt 2)]) "canvas").
Proof.
  apply (use_activates registry_ab "b" (VDict DotDict [("canvas", VInt 2)])
           "canvas").
  vm_compute. reflexivity.
Defined.

(** X10. [set] overwrites: registering twice under one name leaves the
    registry as registering the second style alone does.  Registrations
    under different names do not depend on their order. *)
Theorem set_overwrites :
  forall (s : Styles.t) (n1 n2 : string) (v1 v2 : value),
    (isinstance_dict v2 = true ->
     fst (Styles.set n1 v2 (fst (Styles.set n1 v1 s))) =
     fst (Styles.set n1 v2 s)) /\
    (n1 <> n2 ->
     fst (Styles.set n1 v1 (fst (Styles.set n2 v2 s))) =
     fst (Styles.set n2 v2 (fst (Styles.set n1 v1 s)))).
Proof.
  intros s n1 n2 v1 v2. unfold Styles.set. split.
  - intros ->. simpl. destruct (isinstance_dict v1); simpl; [|reflexivity].
    now rewrite insert_insert_eq.
  - intros Hne. destruct (isinstance_dict v1), (isinstance_dict v2); simpl;
      try reflexivity.
    f_equal. now apply insert_insert_ne.
Qed.

Lemma set_overwrites_witness :
  fst (Styles.set "a" (VDict PyDict [])
         (fst (Styles.set "a" (VDict DotDict [("x", VInt 1)]) Styles.new))) =
  fst (Styles.set "a" (VDict PyDict []) Styles.new) /\
  fst (Styles.set "a" (VDict PyDict [])
         (fst (Styles.set "b" (VInt 3) Styles.new))) =
  fst (Styles.set "b" (VInt 3) (fst (Styles.set "a" (VDict PyDict []) Styles.new))).
Proof.
  split.
  - apply (proj1 (set_overwrites Styles.new "a" "a"
                    (VDict DotDict [("x", VInt 1)]) (VDict PyDict []))).
    reflexivity.
  - apply (proj2 (set_overwrites Styles.new "a" "b" (VDict PyDict []) (VInt 3))).
    discriminate.
Defined.

(** X11. A scope does not undo what its body registers: [set] inside a
    scope [use(name)] has the result and leaves the registry as the same
    [set] outside the scope, the active style itself being overwritten
    included. *)
Theorem use_keeps_registrations :
  forall (s : Styles.t) (name c : string) (v : value),
    is_Some (Styles._styles s !! name) ->
    Styles.use name (fun _ => Styles.set c v) s = Styles.set c v s.
Proof.
  intros s name c v [style H]. rewrite (use_registered _ _ _ _ H).
  unfold Styles.set. destruct (negb (isinstance_dict v)); simpl;
    rewrite match_snoc, removelast_last; destruct s; reflexivity.
Qed.

Lemma use_keeps_registrations_witness :
  Styles.use "a" (fun _ => Styles.set "a" (VDict PyDict [])) registry_ab
  = Styles.set "a" (VDict PyDict []) registry_ab.
Proof.
  apply (use_keeps_registrations registry_ab "a" "a" (VDict PyDict [])).
  eexists. vm_compute. reflexivity.
Defined.

(** ** More on apply_properties and set_color *)

Section ToolsMore.

Import Tools.

Context {obj_t : Type}.
Variable obj_getattr : obj_t -> string -> option (attribute obj_t).

Lemma apply_loop_app pre post obj :
  apply_loop obj_getattr (pre ++ post) obj =
  (apply_loop obj_getattr pre ;;; apply_loop obj_getattr post) obj.
Proof.
  revert obj. induction pre as [|[name v] pre IH]; intros obj; simpl.
  - reflexivity.
  - rewrite bind_assoc. apply bind_ext. intros _ obj1. apply IH.
Qed.





(** X12. The properties are applied one after the other and the first
    setter that raises ends the call: what was applied before stays
    applied, what comes after is not applied. *)
Theorem apply_properties_stops_at_failure :
  forall (c : dict_class) (pre post : items_t) (obj : obj_t),
    wf_items (pre ++ post) = true ->
    apply_properties obj_getattr (VDict c (pre ++ post)) [] obj =
      (apply_loop obj_getattr pre ;;; apply_loop obj_getattr post) obj /\
    (forall obj' e,
        apply_loop obj_getattr pre obj = (obj', Raise e) ->
        apply_properties obj_getattr (VDict c (pre ++ post)) [] obj
          = (obj', Raise e)).
Proof.
  intros c pre post obj Hwf.
  assert (E : apply_properties obj_getattr (VDict c (pre ++ post)) [] obj =
              (apply_loop obj_getattr pre ;;; apply_loop obj_getattr post) obj).
  { rewrite apply_properties_single by assumption. apply apply_loop_app. }
  split; [exact E|].
  intros obj' e H. rewrite E. unfold bind. now rewrite H.
Qed.



End ToolsMore.

Lemma apply_properties_stops_at_failure_witness :
  Tools.apply_properties Recorder.getattr
    (VDict PyDict ([("Foo", VInt 1); ("Bad", VInt 2)] ++ [("Bar", VInt 3)]))
    [] []
  = ([("SetFoo", [VInt 1])],
     Raise (Exn (OtherError "RuntimeError") "out of range")).
Proof.
  apply (proj2 (apply_properties_stops_at_failure Recorder.getattr PyDict
                  [("Foo", VInt 1); ("Bad", VInt 2)] [("Bar", VInt 3)] []
                  eq_refl)).
  reflexivity.
Defined.


(** ** More on get_pad_coordinates, and the legend coordinates *)

(** Decide the comparisons of string literals in the goal. *)
Ltac decide_literals :=
  repeat match goal with
         | |- context [String.eqb ?a ?b] =>
             let r := eval vm_compute in (String.eqb a b) in
             change (String.eqb a b) with r
         end;
  cbv iota.

Section PadMore.

Import Tools.

Lemma getattr_raises s attr e :
  snd (Styles.getattr attr s) = Raise e -> Styles.getattr attr s = (s, Raise e).
Proof. rewrite getattr_run. simpl. now intros ->. Qed.

Lemma getattr_returns s attr v :
  snd (Styles.getattr attr s) = Return v -> Styles.getattr attr s = (s, Return v).
Proof. rewrite getattr_run. simpl. now intros ->. Qed.

Lemma pad_attr_raises {B} s name e (k : value -> M Styles.t B) :
  snd (Styles.getattr "pad" s) = Raise e ->
  bind (pad_attr name) k s = (s, Raise e).
Proof.
  intros H. unfold pad_attr, bind. now rewrite (getattr_raises _ _ _ H).
Qed.

(** X14. A centred position does not use the offsets: for ["c"], ["c"]
    the result is the same whatever is passed as offsets, numbers or not,
    and a horizontal (vertical) ["c"] makes the horizontal (vertical)
    offset irrelevant.  With valid positions and an active style without a
    [pad] group, the [AttributeError] of the lookup comes out and the
    registry is as before. *)
Theorem get_pad_coordinates_edges :
  forall (s : Styles.t) (offset h_offset v_offset : value),
    (forall offset' h_offset' v_offset',
        get_pad_coordinates "c" "c" offset h_offset v_offset s =
        get_pad_coordinates "c" "c" offset' h_offset' v_offset' s) /\
    (forall v h_offset',
        get_pad_coordinates "c" v offset h_offset v_offset s =
        get_pad_coordinates "c" v offset h_offset' v_offset s) /\
    (forall h v_offset',
        get_pad_coordinates h "c" offset h_offset v_offset s =
        get_pad_coordinates h "c" offset h_offset v_offset' s) /\
    (forall h v e,
        mem h h_values = true -> mem v v_values = true ->
        snd (Styles.getattr "pad" s) = Raise e ->
        get_pad_coordinates h v offset h_offset v_offset s = (s, Raise e)).
Proof.
  intros s offset h_offset v_offset. split; [|split; [|split]].
  - reflexivity.
  - reflexivity.
  - reflexivity.
  - intros h v e Hh Hv He. unfold get_pad_coordinates. rewrite Hh, Hv.
    cbn [negb]. cbv zeta. unfold bind at 1.
    assert (Hx : forall ho, x_position h ho s = (s, Raise e)).
    { intros ho. apply mem_In in Hh.
      assert (Hcase : h = "l" \/ h = "c" \/ h = "r")
        by (simpl in Hh; intuition).
      destruct Hcase as [-> | [-> | ->]]; unfold x_position; decide_literals;
        now apply pad_attr_raises. }
    now rewrite Hx.
Qed.

End PadMore.

Lemma get_pad_coordinates_edges_witness :
  Tools.get_pad_coordinates "l" "t" Tools.default_offset VNone VNone Styles.new
  = (Styles.new, Raise (Exn AttributeError "pad")).
Proof.
  apply (proj2 (proj2 (proj2 (get_pad_coordinates_edges Styles.new
                                Tools.default_offset VNone VNone))));
    reflexivity.
Defined.

Section LegendFacts.

Import Setup.

Lemma arg_or_style_given arg attr s :
  Tools.is_None arg = false -> arg_or_style arg attr s = (s, Return arg).
Proof. intros H. unfold arg_or_style. now rewrite H. Qed.

Lemma getattr_item s items attr :
  snd (Styles.current_style s) = Return (VDict DotDict items) ->
  mem attr (type_attrs DotDict) = false ->
  Styles.getattr attr s =
  (s, match dict_getitem attr items with
      | Some v => Return v
      | None => Raise (Exn AttributeError attr)
      end).
Proof.
  intros Hcur Hattr. rewrite getattr_run, Hcur. cbv beta iota.
  unfold py_getattr. now rewrite Hattr.
Qed.

Lemma arg_or_style_default arg attr s items a :
  snd (Styles.current_style s) = Return (VDict DotDict items) ->
  mem attr (type_attrs DotDict) = false ->
  dict_getitem attr items = Some a ->
  arg_or_style arg attr s = (s, Return (if Tools.is_None arg then a else arg)).
Proof.
  intros Hcur Hattr Ha. unfold arg_or_style.
  destruct (Tools.is_None arg); [|reflexivity].
  rewrite (getattr_item _ _ _ Hcur Hattr). now rewrite Ha.
Qed.

(** X15. With the four coordinates given, [calculate_legend_coords] does
    not read the registry (any registry will do and it is left as it is),
    hands [x1], [x2] and [y2] through unchanged, whatever [x1] and [x2] are,
    and puts the lower edge [dy * n_entries] below [y2]: exactly so for
    integers, in binary64 for floats; without entries both edges
    coincide. *)
Theorem calculate_legend_coords_explicit :
  forall (s : Styles.t) (x1 x2 : value),
    Tools.is_None x1 = false -> Tools.is_None x2 = false ->
    (forall n y2 dy : Z,
        calculate_legend_coords (VInt n) x1 x2 (VInt y2) (VInt dy) s =
        (s, Return (VTuple [x1; VInt (y2 - dy * n); x2; VInt y2]))) /\
    (forall n y2 dy : float,
        calculate_legend_coords (VFloat n) x1 x2 (VFloat y2) (VFloat dy) s =
        (s, Return (VTuple [x1; VFloat (y2 - dy * n)%float; x2; VFloat y2]))) /\
    (forall y2 dy : Z,
        calculate_legend_coords (VInt 0) x1 x2 (VInt y2) (VInt dy) s =
        (s, Return (VTuple [x1; VInt y2; x2; VInt y2]))).
Proof.
  intros s x1 x2 H1 H2.
  assert (E : forall n y2 dy y1,
             Tools.is_None y2 = false -> Tools.is_None dy = false ->
             (p <- lift (py_mul dy n) ;; lift (py_sub y2 p)) s
               = (s, Return y1) ->
             calculate_legend_coords n x1 x2 y2 dy s =
             (s, Return (VTuple [x1; y1; x2; y2]))).
  { intros n y2 dy y1 H3 H4 Hy. unfold calculate_legend_coords.
    unfold bind at 1. rewrite (arg_or_style_given _ _ _ H1).
    unfold bind at 1. rewrite (arg_or_style_given _ _ _ H2).
    unfold bind at 1. rewrite (arg_or_style_given _ _ _ H3).
    unfold bind at 1. rewrite (arg_or_style_given _ _ _ H4).
    unfold bind, lift in *. destruct (py_mul dy n) as [p|e]; [|discriminate].
    destruct (py_sub y2 p) as [y|e]; [|discriminate].
    injection Hy as ->. reflexivity. }
  split; [|split].
  - intros n y2 dy. apply E; reflexivity.
  - intros n y2 dy. apply E; reflexivity.
  - intros y2 dy. rewrite (E (VInt 0) (VInt y2) (VInt dy) (VInt (y2 - dy * 0)));
      try reflexivity.
    now rewrite Z.mul_0_r, Z.sub_0_r.
Qed.

Lemma calculate_legend_coords_explicit_witness :
  (forall n y2 dy : Z,
      calculate_legend_coords (VInt n) (VStr "left") (VFloat 0.5) (VInt y2)
        (VInt dy) Styles.new =
      (Styles.new,
       Return (VTuple [VStr "left"; VInt (y2 - dy * n); VFloat 0.5; VInt y2]))) /\
  (forall n y2 dy : float,
      calculate_legend_coords (VFloat n) (VStr "left") (VFloat 0.5) (VFloat y2)
        (VFloat dy) Styles.new =
      (Styles.new,
       Return (VTuple [VStr "left"; VFloat (y2 - dy * n)%float; VFloat 0.5;
                       VFloat y2]))) /\
  (forall y2 dy : Z,
      calculate_legend_coords (VInt 0) (VStr "left") (VFloat 0.5) (VInt y2)
        (VInt dy) Styles.new =
      (Styles.new,
       Return (VTuple [VStr "left"; VInt y2; VFloat 0.5; VInt y2]))).
Proof.
  apply (calculate_legend_coords_explicit Styles.new (VStr "left") (VFloat 0.5));
    reflexivity.
Defined.

(** X16. A coordinate passed as [None] is read from the active style, each
    one on its own: with a [DotDict] style that has the four legend entries
    the call is the same as the call with the missing coordinates filled in
    from the style.  When the style lacks the entry of a coordinate that is
    [None], the [AttributeError] of the lookup comes out. *)
Theorem calculate_legend_coords_defaults :
  forall (s : Styles.t) (items : items_t) (n x1 x2 y2 dy : value),
    snd (Styles.current_style s) = Return (VDict DotDict items) ->
    (forall a b c d,
        dict_getitem "legend_x1" items = Some a ->
        dict_getitem "legend_x2" items = Some b ->
        dict_getitem "legend_y2" items = Some c ->
        dict_getitem "legend_dy" items = Some d ->
        calculate_legend_coords n x1 x2 y2 dy s =
        calculate_legend_coords n
          (if Tools.is_None x1 then a else x1)
          (if Tools.is_None x2 then b else x2)
          (if Tools.is_None y2 then c else y2)
          (if Tools.is_None dy then d else dy) s) /\
    (dict_getitem "legend_x1" items = None ->
     calculate_legend_coords n VNone x2 y2 dy s =
     (s, Raise (Exn AttributeError "legend_x1"))).
Proof.
  intros s items n x1 x2 y2 dy Hcur. split.
  - intros a b c d Ha Hb Hc Hd.
    assert (Harg : forall B arg attr v (k : value -> M Styles.t B),
               mem attr (type_attrs DotDict) = false ->
               dict_getitem attr items = Some v ->
               bind (arg_or_style arg attr) k s =
               k (if Tools.is_None arg then v else arg) s).
    { intros B arg attr v k Hattr Hv. unfold bind.
      now rewrite (arg_or_style_default arg attr s items v Hcur Hattr Hv). }
    assert (Hidem : forall arg v,
               (if Tools.is_None (if Tools.is_None arg then v else arg)
                then v else (if Tools.is_None arg then v else arg)) =
               (if Tools.is_None arg then v else arg)).
    { intros arg v. destruct (Tools.is_None arg) eqn:E; [|now rewrite E].
      destruct (Tools.is_None v); reflexivity. }
    unfold calculate_legend_coords.
    rewrite (Harg _ x1 "legend_x1" a _ eq_refl Ha).
    rewrite (Harg _ x2 "legend_x2" b _ eq_refl Hb).
    rewrite (Harg _ y2 "legend_y2" c _ eq_refl Hc).
    rewrite (Harg _ dy "legend_dy" d _ eq_refl Hd).
    rewrite (Harg _ (if Tools.is_None x1 then a else x1) "legend_x1" a _
               eq_refl Ha).
    rewrite (Harg _ (if Tools.is_None x2 then b else x2) "legend_x2" b _
               eq_refl Hb).
    rewrite (Harg _ (if Tools.is_None y2 then c else y2) "legend_y2" c _
               eq_refl Hc).
    rewrite (Harg _ (if Tools.is_None dy then d else dy) "legend_dy" d _
               eq_refl Hd).
    now rewrite !Hidem.
  - intros Hnone. unfold calculate_legend_coords. unfold bind at 1.
    assert (E : arg_or_style VNone "legend_x1" s =
                (s, Raise (Exn AttributeError "legend_x1"))).
    { unfold arg_or_style. cbn [Tools.is_None].
      rewrite (getattr_item _ _ "legend_x1" Hcur eq_refl). now rewrite Hnone. }
    now rewrite E.
Qed.

End LegendFacts.

Lemma calculate_legend_coords_defaults_witness :
  Setup.calculate_legend_coords (VInt 3) VNone (VInt 95) VNone VNone
    registry_full =
  Setup.calculate_legend_coords (VInt 3) (VInt 10) (VInt 95) (VInt 80) (VInt 5)
    registry_full /\
  Setup.calculate_legend_coords (VInt 3) VNone VNone VNone VNone Styles.new =
  (Styles.new, Raise (Exn AttributeError "legend_x1")).
Proof.
  split.
  - destruct (calculate_legend_coords_defaults registry_full
                [("canvas_width", VInt 800);
                 ("canvas_height", VInt 600);
                 ("canvas", VDict DotDict [("FillStyle", VInt 1001)]);
                 ("latex", VDict DotDict [("Foo", VInt 1)]);
                 ("legend_x1", VInt 10);
                 ("legend_x2", VInt 90);
                 ("legend_y2", VInt 80);
                 ("legend_dy", VInt 5)]
                (VInt 3) VNone (VInt 95) VNone VNone) as [H _];
      [vm_compute; reflexivity|].
    apply (H (VInt 10) (VInt 90) (VInt 80) (VInt 5)); reflexivity.
  - destruct (calculate_legend_coords_defaults Styles.new []
                (VInt 3) VNone VNone VNone VNone) as [_ H];
      [vm_compute; reflexivity|].
    apply H. reflexivity.
Defined.

(** ** The setup functions *)

Section SetupFacts.

Import Setup.

Context {obj_t : Type}.
Variable obj_getattr : obj_t -> string -> option (Tools.attribute obj_t).
Variable obj_class : string.

Implicit Types (styles : Styles.t) (obj : obj_t).

Lemma on_styles_getattr attr styles obj :
  on_styles (Styles.getattr attr) (styles, obj) =
  ((styles, obj), snd (Styles.getattr attr styles)).
Proof. unfold on_styles. simpl. now rewrite getattr_run. Qed.

Lemma setup_plain_run group props styles obj :
  setup_plain obj_getattr group props (styles, obj) =
  match snd (Styles.getattr group styles) with
  | Return style =>
      on_target (Tools.apply_properties obj_getattr style [props]) (styles, obj)
  | Raise e => ((styles, obj), Raise e)
  end.
Proof.
  unfold setup_plain, bind. rewrite on_styles_getattr.
  destruct (snd (Styles.getattr group styles)); reflexivity.
Qed.

(** X17. [setup_style], [setup_pad] and [setup_box] apply the group of
    the active style and then the given properties on top.  Without
    properties ([props=None]) the group is applied as it is; with them the
    properties of the group keep their order, a value given in [props]
    replaces that of the group and new properties come last.  When the
    active style has no such group, the [AttributeError] comes out and the
    target is not touched; when the group is no dict and no properties are
    given, it is the [TypeError] of [merge_dicts]. *)
Theorem setup_plain_applies :
  forall (group : string) (styles : Styles.t) (obj : obj_t),
    (forall props e,
        snd (Styles.getattr group styles) = Raise e ->
        setup_plain obj_getattr group props (styles, obj)
          = ((styles, obj), Raise e)) /\
    (forall c G,
        snd (Styles.getattr group styles) = Return (VDict c G) ->
        wf_items G = true ->
        setup_plain obj_getattr group VNone (styles, obj) =
          on_target (Tools.apply_loop obj_getattr G) (styles, obj) /\
        (forall cp P,
            wf_items P = true ->
            setup_plain obj_getattr group (VDict cp P) (styles, obj) =
              on_target (Tools.apply_loop obj_getattr (dict_update G P))
                (styles, obj))) /\
    (forall v,
        snd (Styles.getattr group styles) = Return v ->
        isinstance_dict v = false ->
        setup_plain obj_getattr group VNone (styles, obj)
          = ((styles, obj), Raise no_dict_error)).
Proof.
  intros group styles obj. split; [|split].
  - intros props e H. now rewrite setup_plain_run, H.
  - intros c G H Hwf.
    assert (HG : dict_update [] G = G) by now apply update_empty, wf_items_NoDup.
    split.
    + rewrite setup_plain_run, H. unfold on_target, Tools.apply_properties.
      unfold bind, lift. simpl. now rewrite HG.
    + intros cp P HP. rewrite setup_plain_run, H.
      unfold on_target, Tools.apply_properties, bind, lift. simpl.
      now rewrite HG.
  - intros v H Hv. rewrite setup_plain_run, H.
    unfold on_target, Tools.apply_properties, bind, lift, merge_dicts.
    rewrite infer_cls_none; [reflexivity|]. simpl. now rewrite Hv.
Qed.













End SetupFacts.

Section SetupColored.

Import Setup.

Context {obj_t : Type}.
Variable obj_getattr : obj_t -> string -> option (Tools.attribute obj_t).


(** X21. A plain attribute named ["Set" + name] hides a callable [name]:
    [getattr] finds the former, it is not callable, and the property is
    skipped without the fallback being tried. *)
Theorem apply_property_shadowed :
  forall (obj : obj_t) (name : string) (v d : value),
    obj_getattr obj ("Set" ++ name) = Some (Tools.Data d) ->
    Tools.resolve_setter obj_getattr obj name = Some (Tools.Data d) /\
    Tools.apply_property obj_getattr name v obj = (obj, Return tt) /\
    (forall c, Tools.apply_properties obj_getattr (VDict c [(name, v)]) [] obj
               = (obj, Return tt)).
Proof.
  intros obj name v d H.
  assert (Hr : Tools.resolve_setter obj_getattr obj name = Some (Tools.Data d))
    by (unfold Tools.resolve_setter; now rewrite H).
  assert (Hs : Tools.apply_property obj_getattr name v obj = (obj, Return tt))
    by (apply apply_property_skip; now rewrite Hr).
  split; [exact Hr|]. split; [exact Hs|].
  intros c. rewrite apply_properties_single by reflexivity.
  simpl. unfold bind, ret. now rewrite Hs.
Qed.

End SetupColored.

Lemma setup_plain_applies_witness :
  Setup.setup_pad canvas_getattr VNone (Styles.new, [])
    = ((Styles.new, []), Raise (Exn AttributeError "pad")) /\
  Setup.setup_plain canvas_getattr "canvas" VNone (registry_full, [])
    = Setup.on_target
        (Tools.apply_loop canvas_getattr [("FillStyle", VInt 1001)])
        (registry_full, []) /\
  Setup.setup_plain canvas_getattr "canvas"
      (VDict PyDict [("WindowSize", VTuple [VInt 1; VInt 2]);
                     ("FillStyle", VInt 4000)])
      (registry_full, [])
    = Setup.on_target
        (Tools.apply_loop canvas_getattr
           (dict_update [("FillStyle", VInt 1001)]
              [("WindowSize", VTuple [VInt 1; VInt 2]);
               ("FillStyle", VInt 4000)]))
        (registry_full, []) /\
  Setup.setup_plain canvas_getattr "canvas_width" VNone (registry_full, [])
    = ((registry_full, []), Raise no_dict_error).
Proof.
  split; [|split; [|split]].
  - apply (proj1 (setup_plain_applies canvas_getattr "pad" Styles.new [])).
    vm_compute. reflexivity.
  - apply (proj1 (proj2 (setup_plain_applies canvas_getattr "canvas"
                           registry_full [])) DotDict
             [("FillStyle", VInt 1001)]).
    + vm_compute. reflexivity.
    + reflexivity.
  - apply (proj1 (proj2 (setup_plain_applies canvas_getattr "canvas"
                           registry_full [])) DotDict
             [("FillStyle", VInt 1001)]).
    + vm_compute. reflexivity.
    + reflexivity.
    + reflexivity.
  - apply (proj2 (proj2 (setup_plain_applies canvas_getattr "canvas_width"
                           registry_full [])) (VInt 800)).
    + vm_compute. reflexivity.
    + reflexivity.
Defined.



Lemma apply_property_shadowed_witness :
  callable (shadow_getattr [] "Bar") = true /\
  Tools.resolve_setter shadow_getattr [] "Bar" = Some (Tools.Data (VInt 0)) /\
  Tools.apply_property shadow_getattr "Bar" (VInt 1) [] = ([], Return tt) /\
  (forall c,
      Tools.apply_properties shadow_getattr (VDict c [("Bar", VInt 1)]) [] []
      = ([], Return tt)).
Proof.
  split; [reflexivity|].
  apply (apply_property_shadowed shadow_getattr [] "Bar" (VInt 1) (VInt 0)).
  reflexivity.
Defined.

Lemma registry_invariant_witness :
  wf_registry (fst (Styles.set "a" (VDict DotDict [("canvas", VInt 1)])
                      Styles.new)) /\
  wf_registry (fst (Styles.set "a" (VInt 5) Styles.new)) /\
  wf_registry (fst (Styles.use "default"
                      (fun style => Styles.set "copy" style) Styles.new)) /\
  exists style,
    Styles.current_style Styles.new = (Styles.new, Return style) /\
    isinstance_dict style = true.
Proof.
  destruct (proj2 registry_invariant Styles.new (proj1 registry_invariant))
    as (Hset & Huse & Hcur).
  split; [apply Hset|]. split; [apply Hset|]. split; [|exact Hcur].
  apply Huse. intros style s' Hs'.
  apply (proj1 (proj2 registry_invariant s' Hs')).
Defined.
